(** * zegami_sdk/annotation.py: mask annotations

    A shallow embedding of [_Annotation] and [AnnotationMask] together with
    the fragment of Python, NumPy, Pillow and base64 that their methods run
    on, and the properties of the mask encoder, the bounds extractor and the
    annotation accessors. *)

From Stdlib Require Import ZArith NArith Lia Bool Strings.Byte.
From stdpp Require Import base list strings.

Local Open Scope string_scope.
Local Open Scope Z_scope.
Set Warnings "-register-all".

(** ** Python values *)

(** NumPy element types that occur in the module: [bool], [uint8] (the
    image bytes) and [int64] (the integer 0/1 arrays a caller may pass by
    mistake). *)
Inductive dtype := dt_bool | dt_uint8 | dt_int64.

(** The flat, C-contiguous (row-major) element buffer of an array. *)
Inductive buffer :=
| BoolBuf (bs : list bool)
| UInt8Buf (zs : list Z)
| Int64Buf (zs : list Z).

Record ndarray := mk_ndarray { shape : list nat; buf : buffer }.

Inductive pyval :=
| PyNone
| PyBool (b : bool)
| PyInt (z : Z)
| PyStr (s : string)
| PyList (l : list pyval)
| PyDict (d : list (string * pyval))
| PyArr (a : ndarray).

(** [type(x)] *)
Inductive pytype := T_NoneType | T_bool | T_int | T_str | T_list | T_dict | T_ndarray.

Definition type_of (v : pyval) : pytype :=
  match v with
  | PyNone => T_NoneType
  | PyBool _ => T_bool
  | PyInt _ => T_int
  | PyStr _ => T_str
  | PyList _ => T_list
  | PyDict _ => T_dict
  | PyArr _ => T_ndarray
  end.

Definition dtype_eqb (s t : dtype) : bool :=
  match s, t with
  | dt_bool, dt_bool | dt_uint8, dt_uint8 | dt_int64, dt_int64 => true
  | _, _ => false
  end.

(** ** Exceptions *)

(** The built-in exception classes the module can raise, with their place
    in Python's hierarchy. *)
Inductive exn_class :=
| BaseException | PyException
| AssertionError | TypeError | ValueError
| LookupError | IndexError | KeyError
| UnicodeError | UnicodeDecodeError | AttributeError | OSError.

Definition exn_class_eqb (c d : exn_class) : bool :=
  match c, d with
  | BaseException, BaseException | PyException, PyException
  | AssertionError, AssertionError | TypeError, TypeError
  | ValueError, ValueError | LookupError, LookupError
  | IndexError, IndexError | KeyError, KeyError
  | UnicodeError, UnicodeError | UnicodeDecodeError, UnicodeDecodeError
  | AttributeError, AttributeError | OSError, OSError => true
  | _, _ => false
  end.

(** The direct base class; [BaseException] is the root. *)
Definition exn_base (c : exn_class) : option exn_class :=
  match c with
  | BaseException => None
  | PyException => Some BaseException
  | AssertionError | TypeError | ValueError | LookupError | AttributeError | OSError =>
      Some PyException
  | IndexError | KeyError => Some LookupError
  | UnicodeError => Some ValueError
  | UnicodeDecodeError => Some UnicodeError
  end.

(** [issubclass c d]: walk the base-class chain (at most four links here). *)
Fixpoint subclass_fuel (n : nat) (c d : exn_class) : bool :=
  exn_class_eqb c d ||
  match n with
  | O => false
  | S n' => match exn_base c with
            | Some b => subclass_fuel n' b d
            | None => false
            end
  end.

Definition issubclass (c d : exn_class) : bool := subclass_fuel 4 c d.

(** What is substituted for a [{}] of a message by [str.format]. *)
Inductive fmt_arg :=
| FType (t : pytype)
| FDtype (d : dtype)
| FShape (s : list nat)
| FValue (v : pyval)
| FDict (d : list (string * pyval)).

(** An exception instance: its class and its message, kept as the format
    string and the arguments [str.format] is applied to. *)
Record exn := mk_exn { exn_cls : exn_class; exn_fmt : string; exn_args : list fmt_arg }.

(** [isinstance(e, c)] *)
Definition isinstance (e : exn) (c : exn_class) : bool := issubclass (exn_cls e) c.

Inductive result (A : Type) :=
| Ok (a : A)
| Raise (e : exn).
Arguments Ok {A} a.
Arguments Raise {A} e.

(** Sequencing: an exception raised by the first computation is the
    outcome of the whole.  The instances give [result] the notation
    [x ← r; k]. *)
#[export] Instance result_bind : MBind result := fun A B k r =>
  match r with
  | Ok a => k a
  | Raise e => Raise e
  end.
#[export] Instance result_ret : MRet result := fun A a => Ok a.

(** [assert c, fmt.format(args)] *)
Definition py_assert (c : bool) (fmt : string) (args : list fmt_arg) : result unit :=
  if c then Ok tt else Raise (mk_exn AssertionError fmt args).

(** [try: body except: handler] with a bare [except], which catches every
    exception. *)
Definition try_except {A} (body : result A) (handler : A) : A :=
  match body with
  | Ok a => a
  | Raise _ => handler
  end.

(** ** NumPy arrays *)

Definition dtype_of (a : ndarray) : dtype :=
  match buf a with
  | BoolBuf _ => dt_bool
  | UInt8Buf _ => dt_uint8
  | Int64Buf _ => dt_int64
  end.

Definition buf_size (b : buffer) : nat :=
  match b with
  | BoolBuf l => length l
  | UInt8Buf l | Int64Buf l => length l
  end.

(** Number of elements of a shape. *)
Definition prod_shape (s : list nat) : nat := foldr Nat.mul 1%nat s.

Definition in_range (lo hi : Z) (z : Z) : bool := (lo <=? z) && (z <? hi).

(** The representation invariant of an array NumPy can hold: the buffer
    has one element per index, every element fits its type and every
    extent fits the signed 64-bit index type. *)
Definition ndarray_wf (a : ndarray) : bool :=
  Nat.eqb (buf_size (buf a)) (prod_shape (shape a))
  && forallb (fun d => Z.of_nat d <? 2 ^ 63) (shape a)
  && match buf a with
     | BoolBuf _ => true
     | UInt8Buf l => forallb (in_range 0 256) l
     | Int64Buf l => forallb (in_range (- 2 ^ 63) (2 ^ 63)) l
     end.

(** Truth value of the element at a flat position, as [np.any] and
    [np.where] read it: a nonzero number counts as true. *)
Definition truth_at (b : buffer) (i : nat) : bool :=
  match b with
  | BoolBuf l => nth i l false
  | UInt8Buf l | Int64Buf l => negb (nth i l 0 =? 0)
  end.

(** Pick the elements at the flat positions [idx]. *)
Definition gather (idx : list nat) (b : buffer) : buffer :=
  match b with
  | BoolBuf l => BoolBuf (map (fun i => nth i l false) idx)
  | UInt8Buf l => UInt8Buf (map (fun i => nth i l 0) idx)
  | Int64Buf l => Int64Buf (map (fun i => nth i l 0) idx)
  end.

(** [np.expand_dims(a, -1)]: a view with a trailing axis of extent 1. *)
Definition expand_dims_last (a : ndarray) : ndarray :=
  mk_ndarray (shape a ++ [1%nat]) (buf a).

(** [a[:, :, 0]]: the first plane along the third axis.  With [r] the
    number of elements behind the third axis, element [q] of the result is
    element [(q / r) * n * r + q mod r] of [a]. *)
Definition index_plane0 (a : ndarray) : result ndarray :=
  match shape a with
  | h :: w :: n :: rest =>
      if Nat.eqb n 0
      then Raise (mk_exn IndexError "index 0 is out of bounds for axis 2 with size 0" [])
      else
        let r := prod_shape rest in
        Ok (mk_ndarray (h :: w :: rest)
              (gather (map (fun q => (q / r * n * r + q mod r)%nat)
                           (seq 0 (h * w * r)))
                      (buf a)))
  | _ =>
      Raise (mk_exn IndexError
               "too many indices for array: array is {}-dimensional, but 3 were indexed"
               [FValue (PyInt (Z.of_nat (length (shape a))))])
  end.

(** [np.any(a, axis=axis)].  With the shape split as [pre ++ d :: post],
    the result has shape [pre ++ post] and its element [(o, p)] is the
    disjunction over [k < d] of the elements [(o, k, p)] of [a]. *)
Definition np_any (axis : nat) (a : ndarray) : result ndarray :=
  match shape a !! axis with
  | None =>   (* numpy.exceptions.AxisError, a ValueError *)
      Raise (mk_exn ValueError "axis {} is out of bounds for array of dimension {}"
               [FValue (PyInt (Z.of_nat axis)); FValue (PyInt (Z.of_nat (length (shape a))))])
  | Some d =>
      let outer := prod_shape (take axis (shape a)) in
      let inner := prod_shape (drop (S axis) (shape a)) in
      Ok (mk_ndarray (take axis (shape a) ++ drop (S axis) (shape a))
            (BoolBuf (map (fun q =>
                             existsb (fun k => truth_at (buf a)
                                                 ((q / inner * d + k) * inner + q mod inner))
                                     (seq 0 d))
                          (seq 0 (outer * inner)))))
  end.

(** Positions of the true elements of a flat buffer, in increasing order. *)
Fixpoint nonzero_from (b : buffer) (i n : nat) : list nat :=
  match n with
  | O => []
  | S n' => if truth_at b i then i :: nonzero_from b (S i) n'
            else nonzero_from b (S i) n'
  end.

(** [np.where(a)[0]]: for every true element, in row-major order, its
    index along the first axis. *)
Definition np_where_0 (a : ndarray) : result (list Z) :=
  match shape a with
  | [] => Raise (mk_exn ValueError
                   "Calling nonzero on 0d arrays is not allowed." [])
  | _ :: post =>
      Ok (map (fun f => Z.of_nat (f / prod_shape post))
              (nonzero_from (buf a) 0 (buf_size (buf a))))
  end.

(** [v[[0, -1]]] on a 1-dimensional integer array, unpacked into two
    names: its first and last element. *)
Definition take_first_last (v : list Z) : result (Z * Z) :=
  match v with
  | [] => Raise (mk_exn IndexError "index 0 is out of bounds for axis 0 with size 0" [])
  | x :: _ => Ok (x, List.last v x)
  end.

(** ** Numeric scalars *)

(** The integers the bounds are made of: a Python [int], or a NumPy
    [int64] scalar taken out of an index array. *)
Inductive num :=
| NInt (z : Z)
| NInt64 (z : Z).

Definition num_val (n : num) : Z :=
  match n with
  | NInt z | NInt64 z => z
  end.

(** Two's-complement reduction to the signed 64-bit range. *)
Definition wrap64 (z : Z) : Z := (z + 2 ^ 63) mod 2 ^ 64 - 2 ^ 63.

(** [a - b]: exact between Python integers, [int64] arithmetic (modulo
    [2^64]) as soon as a NumPy scalar takes part. *)
Definition num_sub (a b : num) : num :=
  match a, b with
  | NInt x, NInt y => NInt (x - y)
  | _, _ => NInt64 (wrap64 (num_val a - num_val b))
  end.

(** [int(n)] on a numeric scalar. *)
Definition int_of_num (n : num) : Z := num_val n.

(** ** Python dicts with string keys *)

(** Insertion-ordered, one entry per key. *)
Fixpoint dict_get (k : string) (d : list (string * pyval)) : option pyval :=
  match d with
  | [] => None
  | (k', v) :: d' => if String.eqb k k' then Some v else dict_get k d'
  end.

(** [d[k] = v]: overwrite in place, or append a new entry. *)
Fixpoint dict_set (k : string) (v : pyval) (d : list (string * pyval)) : list (string * pyval) :=
  match d with
  | [] => [(k, v)]
  | (k', v') :: d' => if String.eqb k k' then (k, v) :: d' else (k', v') :: dict_set k v d'
  end.

(** [k in d.keys()] *)
Definition dict_contains (k : string) (d : list (string * pyval)) : bool :=
  match dict_get k d with
  | Some _ => true
  | None => false
  end.

(** [d[k]] *)
Definition dict_getitem (d : list (string * pyval)) (k : string) : result pyval :=
  match dict_get k d with
  | Some v => Ok v
  | None => Raise (mk_exn KeyError "{}" [FValue (PyStr k)])
  end.

(** ** Pillow images *)

(** [b.astype('uint8')]: the elements as bytes. *)
Definition astype_uint8 (b : buffer) : list Z :=
  match b with
  | BoolBuf l => map (fun x : bool => if x then 1 else 0) l
  | UInt8Buf l => l
  | Int64Buf l => map (fun z => z mod 256) l
  end.

(** [u * k] on [uint8] elements, for a Python integer [k] that fits a
    byte: the product modulo [256]. *)
Definition uint8_mul (u : list Z) (k : Z) : list Z :=
  map (fun z => (z * k) mod 256) u.

Inductive image_mode := Mode_1 | Mode_L.

(** An image of the modes "1" and "L": Pillow stores both with one byte
    per pixel, row after row; a mode "1" pixel is [0] or [255]. *)
Record image := mk_image {
  im_mode : image_mode;
  xsize : nat;
  ysize : nat;
  pixels : list Z
}.

(** [Image.fromarray(a)] for a 2-dimensional [uint8] array of shape
    [(h, w)] with elements [u]: a mode "L" image of size [(w, h)] over the
    same bytes. *)
Definition Image_fromarray (h w : nat) (u : list Z) : image :=
  mk_image Mode_L w h u.

Definition CLIP8 (v : Z) : Z :=
  if v <=? 0 then 0 else if v <? 256 then v else 255.

(** One image row of Pillow's [tobilevel] (Floyd-Steinberg error
    diffusion, the default of [convert('1')]).  [x] is the column, [l],
    [l0], [l1] the running error terms and [errors] the error row of
    [xsize + 1] integers carried from the row above.  The integer division
    is C's, which truncates. *)
Fixpoint dither_row (inp : list Z) (x : nat) (l l0 l1 : Z) (errors : list Z)
  : list Z * list Z :=
  match inp with
  | [] => ([], <[x := l0]> errors)
  | p :: inp' =>
      let l := CLIP8 (p + Z.quot (l + nth (S x) errors 0) 16) in
      let o := if 128 <? l then 255 else 0 in
      let l := l - o in
      let l2 := l in
      let d2 := l + l in
      let l := l + d2 in
      let errors := <[x := l + l0]> errors in
      let l := l + d2 in
      let l0 := l + l1 in
      let l1 := l2 in
      let l := l + d2 in
      let '(out, errors') := dither_row inp' (S x) l l0 l1 errors in
      (o :: out, errors')
  end.

(** The rows from top to bottom; every row starts with [l = l0 = l1 = 0]. *)
Fixpoint dither_rows (w n : nat) (pix : list Z) (errors : list Z) : list Z :=
  match n with
  | O => []
  | S n' =>
      let '(out, errors') := dither_row (take w pix) 0 0 0 0 errors in
      out ++ dither_rows w n' (drop w pix) errors'
  end.

(** [im.convert('1')] *)
Definition Image_convert_1 (im : image) : image :=
  match im_mode im with
  | Mode_1 => im
  | Mode_L =>
      mk_image Mode_1 (xsize im) (ysize im)
        (dither_rows (xsize im) (ysize im) (pixels im) (replicate (S (xsize im)) 0))
  end.

(** ** Bytes, base64 and UTF-8 *)

Definition byte_of_N (n : N) : byte := default Byte.x00 (Byte.of_N n).

Definition b64_alphabet : list byte :=
  String.list_byte_of_string
    "ABCDEFGHIJKLMNOPQRSTUVWXYZabcdefghijklmnopqrstuvwxyz0123456789+/".

Definition b64_pad : byte := Byte.x3d.

(** The character of a 6-bit group. *)
Definition b64_char (s : N) : byte := nth (N.to_nat s) b64_alphabet b64_pad.

Fixpoint index_of (c : byte) (l : list byte) (i : N) : option N :=
  match l with
  | [] => None
  | x :: l' => if Byte.eqb c x then Some i else index_of c l' (N.succ i)
  end.

(** The 6-bit group of a character of the alphabet. *)
Definition b64_value (c : byte) : option N := index_of c b64_alphabet 0.

(** The four 6-bit groups of three bytes. *)
Definition sx0 (a : N) : N := N.shiftr a 2.
Definition sx1 (a b : N) : N := N.lor (N.shiftl (N.land a 3) 4) (N.shiftr b 4).
Definition sx2 (b c : N) : N := N.lor (N.shiftl (N.land b 15) 2) (N.shiftr c 6).
Definition sx3 (c : N) : N := N.land c 63.

(** [base64.b64encode]: three bytes become four characters; a final group
    of one or two bytes is filled up with zero bits and closed with [=]. *)
Fixpoint b64encode (bs : list byte) : list byte :=
  match bs with
  | [] => []
  | [a] =>
      let a := Byte.to_N a in
      [b64_char (sx0 a); b64_char (sx1 a 0); b64_pad; b64_pad]
  | [a; b] =>
      let a := Byte.to_N a in
      let b := Byte.to_N b in
      [b64_char (sx0 a); b64_char (sx1 a b); b64_char (sx2 b 0); b64_pad]
  | a :: b :: c :: rest =>
      let a := Byte.to_N a in
      let b := Byte.to_N b in
      let c := Byte.to_N c in
      b64_char (sx0 a) :: b64_char (sx1 a b) :: b64_char (sx2 b c) :: b64_char (sx3 c)
      :: b64encode rest
  end.

(** The three bytes spread over four 6-bit groups. *)
Definition b64_byte0 (s0 s1 : N) : byte := byte_of_N (N.lor (N.shiftl s0 2) (N.shiftr s1 4)).
Definition b64_byte1 (s1 s2 : N) : byte :=
  byte_of_N (N.lor (N.shiftl (N.land s1 15) 4) (N.shiftr s2 2)).
Definition b64_byte2 (s2 s3 : N) : byte := byte_of_N (N.lor (N.shiftl (N.land s2 3) 6) s3).

Definition is_nil {A} (l : list A) : bool :=
  match l with
  | [] => true
  | _ => false
  end.

(** Modelled from the spec: the base64 decoding step of the mask decoder
    (the module has the encoder only).  Four characters become three
    bytes; [=] may close the last group only; anything else is refused. *)
Fixpoint b64decode (cs : list byte) : option (list byte) :=
  match cs with
  | [] => Some []
  | c0 :: c1 :: c2 :: c3 :: rest =>
      s0 ← b64_value c0;
      s1 ← b64_value c1;
      if Byte.eqb c2 b64_pad && Byte.eqb c3 b64_pad && is_nil rest
      then Some [b64_byte0 s0 s1]
      else
        s2 ← b64_value c2;
        if Byte.eqb c3 b64_pad && is_nil rest
        then Some [b64_byte0 s0 s1; b64_byte1 s1 s2]
        else
          s3 ← b64_value c3;
          tl ← b64decode rest;
          Some (b64_byte0 s0 s1 :: b64_byte1 s1 s2 :: b64_byte2 s2 s3 :: tl)
  | _ => None
  end.

(** Is the byte string well-formed UTF-8?  [n] continuation bytes are
    still due, the next of them within [lo, hi). *)
Fixpoint utf8_valid (n : nat) (lo hi : N) (bs : list byte) : bool :=
  match bs with
  | [] => Nat.eqb n 0
  | b :: bs' =>
      let c := Byte.to_N b in
      match n with
      | S n' => (lo <=? c)%N && (c <? hi)%N && utf8_valid n' 128 192 bs'
      | O =>
          if (c <? 128)%N then utf8_valid 0 128 192 bs'
          else if (c <? 194)%N then false
          else if (c <? 224)%N then utf8_valid 1 128 192 bs'
          else if (c =? 224)%N then utf8_valid 2 160 192 bs'
          else if (c =? 237)%N then utf8_valid 2 128 160 bs'
          else if (c <? 240)%N then utf8_valid 2 128 192 bs'
          else if (c =? 240)%N then utf8_valid 3 144 192 bs'
          else if (c <? 244)%N then utf8_valid 3 128 192 bs'
          else if (c =? 244)%N then utf8_valid 3 128 144 bs'
          else false
      end
  end.

(** [bs.decode("utf-8")]; a [str] is kept as its UTF-8 bytes. *)
Definition bytes_decode_utf8 (bs : list byte) : result string :=
  if utf8_valid 0 128 192 bs then Ok (String.string_of_list_byte bs)
  else Raise (mk_exn UnicodeDecodeError "'utf-8' codec can't decode bytes" []).

(** [s] without the prefix [p], if it starts with it. *)
Fixpoint strip_prefix (p s : string) : option string :=
  match p, s with
  | EmptyString, _ => Some s
  | String a p', String b s' => if Ascii.eqb a b then strip_prefix p' s' else None
  | String _ _, EmptyString => None
  end.

Definition data_uri_prefix : string := "data:image/png;base64,".

(** ** Calls *)

(** Position of a parameter name in a signature. *)
Fixpoint param_index (k : string) (params : list string) : option nat :=
  match params with
  | [] => None
  | p :: params' => if String.eqb k p then Some 0%nat else S <$> param_index k params'
  end.

(** The keyword arguments, one after the other, into the parameter slots
    that the positional arguments left empty. *)
Fixpoint assign_keywords (name : string) (params : list string)
    (slots : list (option pyval)) (kwargs : list (string * pyval))
  : result (list (option pyval)) :=
  match kwargs with
  | [] => Ok slots
  | (k, v) :: kwargs' =>
      match param_index k params with
      | None =>
          Raise (mk_exn TypeError (name +:+ "() got an unexpected keyword argument {}")
                   [FValue (PyStr k)])
      | Some i =>
          match slots !! i with
          | Some None => assign_keywords name params (<[i := Some v]> slots) kwargs'
          | _ =>
              Raise (mk_exn TypeError (name +:+ "() got multiple values for argument {}")
                       [FValue (PyStr k)])
          end
      end
  end.

(** The values of the slots; an empty slot takes the default [None],
    unless it is one of the first [required]. *)
Fixpoint fill_slots (name : string) (required : nat) (slots : list (option pyval))
  : result (list pyval) :=
  match slots with
  | [] => Ok []
  | Some v :: slots' => vs ← fill_slots name (required - 1) slots'; Ok (v :: vs)
  | None :: slots' =>
      if (0 <? required)%nat
      then Raise (mk_exn TypeError (name +:+ "() missing required positional arguments") [])
      else vs ← fill_slots name 0 slots'; Ok (PyNone :: vs)
  end.

(** Binding of the arguments of a call to the parameters [params], of
    which the first [required] have no default and the others default to
    [None] (the only default the module uses): positional arguments first,
    then the keywords, then the check for surplus positional arguments,
    then the defaults.  Every failure is a [TypeError]. *)
Definition bind_args (name : string) (params : list string) (required : nat)
    (args : list pyval) (kwargs : list (string * pyval)) : result (list pyval) :=
  let n := length params in
  let slots := (map Some (take n args) ++ replicate (n - length args) None)%list in
  slots ← assign_keywords name params slots kwargs;
  if (n <? length args)%nat then
    Raise (mk_exn TypeError
             (name +:+ "() takes from {} to {} positional arguments but {} were given")
             [FValue (PyInt (Z.of_nat required));
              FValue (PyInt (Z.of_nat n));
              FValue (PyInt (Z.of_nat (length args)))])
  else fill_slots name required slots.

(** ** class [_Annotation] *)

(** The classes of the module, as the [cls] of a class method. *)
Inductive class := cls_Annotation | cls_AnnotationMask.

(** The class attribute [TYPE]. *)
Definition TYPE (cls : class) : pyval :=
  match cls with
  | cls_Annotation => PyNone
  | cls_AnnotationMask => PyStr "mask"
  end.

(** An instance: the three members [__init__] assigns. *)
Record annotation := mk_annotation {
  _collection : pyval;
  _source : pyval;
  _data : pyval        (* { imageset_id, image_index, type, annotation } *)
}.

Module _Annotation.

(** [__init__(self, collection, annotation_data, source=None)], called
    with the positional arguments [args] ([self] first) and the keyword
    arguments [kwargs]. *)
Definition __init__ (args : list pyval) (kwargs : list (string * pyval))
  : result annotation :=
  params ← bind_args "__init__" ["self"; "collection"; "annotation_data"; "source"] 3
             args kwargs;
  match params with
  | [_; collection; annotation_data; source] =>
      Ok (mk_annotation collection source annotation_data)
  | _ => Raise (mk_exn TypeError "__init__() argument binding" [])
  end.

Definition collection (self : annotation) : pyval := _collection self.
Definition source (self : annotation) : pyval := _source self.

(** [self._data.keys()] and [self._data[k]] need a dict. *)
Definition data_dict (self : annotation) : result (list (string * pyval)) :=
  match _data self with
  | PyDict d => Ok d
  | v => Raise (mk_exn AttributeError "'{}' object has no attribute 'keys'"
                  [FType (type_of v)])
  end.

Definition _image_index (self : annotation) : result pyval :=
  d ← data_dict self;
  _ ← py_assert (dict_contains "image_index" d)
        "Annotation's _data did not contain 'image_index': {}" [FDict d];
  dict_getitem d "image_index".

Section Collection.
(** The collection behind the reference [self.collection] is an
    external object: [world] is its state, and its two methods read
    (and may change) that state. *)
Variable world : Type.
Variable _get_image_meta_lookup : pyval -> pyval -> world -> result (list pyval) * world.
Variable _get_imageset_id : pyval -> pyval -> world -> result pyval * world.
(** [x == y] as [list.index] evaluates it. *)
Variable py_eq : pyval -> pyval -> result bool.

(** [lookup.index(v)], counting from position [i]. *)
Fixpoint list_index (lookup : list pyval) (v : pyval) (i : nat) : result Z :=
  match lookup with
  | [] => Raise (mk_exn ValueError "{} is not in list" [FValue v])
  | x :: lookup' =>
      c ← py_eq x v;
      if c : bool then Ok (Z.of_nat i) else list_index lookup' v (S i)
  end.

Definition row_index (self : annotation) (σ : world) : result Z * world :=
  let '(r, σ') := _get_image_meta_lookup (collection self) (source self) σ in
  (lookup ← r; v ← _image_index self; list_index lookup v 0, σ').

Definition _imageset_id (self : annotation) (σ : world) : result pyval * world :=
  _get_imageset_id (collection self) (source self) σ.
End Collection.

(** The class method [create_uploadable(cls)]. *)
Definition create_uploadable (cls : class) : list (string * pyval) :=
  [("type", TYPE cls); ("format", PyNone); ("annotation", PyNone)].

End _Annotation.

(** ** class [AnnotationMask] *)

Module AnnotationMask.

(** [__init__(self, collection, row_index, source=None,
    from_filepath=None, from_url=None, imageset_id=None,
    image_index=None)].  [super(AnnotationMask, self).__init__] is the
    bound method, so the instance is passed once more in front of the
    eight arguments written in the call. *)
Definition __init__ (args : list pyval) (kwargs : list (string * pyval))
  : result annotation :=
  params ← bind_args "__init__"
             ["self"; "collection"; "row_index"; "source"; "from_filepath"; "from_url";
              "imageset_id"; "image_index"] 3 args kwargs;
  match params with
  | [self; collection; row_index; source; from_filepath; from_url; imageset_id; image_index] =>
      _Annotation.__init__
        (self :: [self; collection; row_index; source; from_filepath; from_url;
                  imageset_id; image_index]) []
  | _ => Raise (mk_exn TypeError "__init__() argument binding" [])
  end.

(** The dict [{'top': .., 'bottom': .., 'left': .., 'right': ..}]. *)
Record bounds := mk_bounds { top : num; bottom : num; left : num; right : num }.

Definition parse_bool_masks (bool_masks : pyval) : result ndarray :=
  match bool_masks with
  | PyArr a =>
      _ ← py_assert (dtype_eqb (dtype_of a) dt_bool)
            "Expected bool_masks to have dtype == bool, not {}" [FDtype (dtype_of a)];
      if Nat.eqb (length (shape a)) 2
      then Ok (expand_dims_last a)
      else Ok a
  | _ =>
      Raise (mk_exn AssertionError "Expected bool_masks to be a numpy array, not {}"
               [FType (type_of bool_masks)])
  end.

Definition get_bool_mask_bounds (bool_mask : pyval) : result bounds :=
  masks ← parse_bool_masks bool_mask;
  plane ← index_plane0 masks;
  rows ← np_any 1 plane;
  cols ← np_any 0 plane;
  Ok (try_except
        ('(t, b) ← np_where_0 rows ≫= take_first_last;
         '(l, r) ← np_where_0 cols ≫= take_first_last;
         Ok (mk_bounds (NInt64 t) (NInt64 b) (NInt64 l) (NInt64 r)))
        (mk_bounds (NInt 0) (NInt 0) (NInt 0) (NInt 0))).

Section Encoder.
(** [mask_image.save(mask_buffer, format='PNG')] followed by
    [mask_buffer.getvalue()]: the PNG file of an image, or the error of
    the writer. *)
Variable png_save : image -> result (list byte).
(** The built-in [int(x)] on an arbitrary object. *)
Variable py_int : pyval -> result Z.

(** Lines 133 to 138: the mask as a 1-bit PNG in a data URI. *)
Definition mask_data_uri (h w : nat) (b : buffer) : result string :=
  let mask_image :=
    Image_convert_1 (Image_fromarray h w (uint8_mul (astype_uint8 b) 255)) in
  byte_data ← png_save mask_image;
  let mask_b64 := b64encode byte_data in
  s ← bytes_decode_utf8 mask_b64;
  Ok (data_uri_prefix +:+ s).

Definition create_uploadable (cls : class) (bool_mask class_id : pyval)
  : result (list (string * pyval)) :=
  match bool_mask with
  | PyArr a =>
      _ ← py_assert (dtype_eqb (dtype_of a) dt_bool)
            "Expected bool_mask.dtype to be bool, not {}" [FDtype (dtype_of a)];
      _ ← py_assert (Nat.eqb (length (shape a)) 2)
            "Expected bool_mask to have a shape of 2 (height, width), not {}"
            [FShape (shape a)];
      match shape a with
      | [h; w] =>
          mask_string ← mask_data_uri h w (buf a);
          bounds ← get_bool_mask_bounds bool_mask;
          let roi :=
            [("xmin", PyInt (int_of_num (left bounds)));
             ("xmax", PyInt (int_of_num (right bounds)));
             ("ymin", PyInt (int_of_num (top bounds)));
             ("ymax", PyInt (int_of_num (bottom bounds)));
             ("width", PyInt (int_of_num (num_sub (right bounds) (left bounds))));
             ("height", PyInt (int_of_num (num_sub (bottom bounds) (top bounds))))] in
          let data :=
            [("mask", PyStr mask_string);
             ("width", PyInt (Z.of_nat w));
             ("height", PyInt (Z.of_nat h));
             ("score", PyNone);
             ("roi", PyDict roi)] in
          let uploadable := _Annotation.create_uploadable cls in
          let uploadable := dict_set "format" (PyStr "1UC1") uploadable in
          let uploadable := dict_set "annotation" (PyDict data) uploadable in
          cid ← py_int class_id;
          Ok (dict_set "class_id" (PyInt cid) uploadable)
      | _ =>
          Raise (mk_exn ValueError "wrong number of values to unpack (expected 2)" [])
      end
  | _ =>
      Raise (mk_exn AssertionError "Expected bool_mask to be a numpy array, not a {}"
               [FType (type_of bool_mask)])
  end.
End Encoder.

Section Decoder.
(** [Image.open(io.BytesIO(data))]: the image of a PNG file. *)
Variable png_open : list byte -> result image.

(** Modelled from the spec: [_get_bool_arr], which [mask_bool] calls
    and the module does not define.  It reverses the encoder on the
    data-URI string of a mask record: strip the data-URI prefix,
    base64-decode, decompress the image, threshold back to boolean
    ([pixel == 255] is true, anything else false). *)
Definition _get_bool_arr (mask : string) : result ndarray :=
  match strip_prefix data_uri_prefix mask with
  | None => Raise (mk_exn ValueError "not a PNG data URI: {}" [FValue (PyStr mask)])
  | Some payload =>
      match b64decode (String.list_byte_of_string payload) with
      | None => Raise (mk_exn ValueError "Incorrect padding" [])
      | Some data =>
          im ← png_open data;
          Ok (mk_ndarray [ysize im; xsize im]
                (BoolBuf (map (fun p => p =? 255) (pixels im))))
      end
  end.

Definition mask_bool (mask : string) : result ndarray :=
  a ← _get_bool_arr mask;
  _ ← py_assert (Nat.eqb (length (shape a)) 2) "Invalid mask_bool shape: {}"
        [FShape (shape a)];
  _ ← py_assert (dtype_eqb (dtype_of a) dt_bool) "Invalid mask_bool dtype: {}"
        [FDtype (dtype_of a)];
  Ok a.

Definition mask_uint8 (mask : string) : result ndarray :=
  a ← mask_bool mask;
  Ok (mk_ndarray (shape a) (UInt8Buf (uint8_mul (astype_uint8 (buf a)) 255))).
End Decoder.

End AnnotationMask.
Import AnnotationMask.

(** A 2-dimensional boolean array of [h] rows and [w] columns as a Python
    value, and its element at row [i], column [j]. *)
Definition bool_array (h w : nat) (l : list bool) : pyval :=
  PyArr (mk_ndarray [h; w] (BoolBuf l)).

Definition pixel (w : nat) (l : list bool) (i j : nat) : bool :=
  nth (i * w + j) l false.

(** Row [i] holds a true value; column [j] holds a true value. *)
Definition row_any (w : nat) (l : list bool) (i : nat) : bool :=
  existsb (fun j => pixel w l i j) (seq 0 w).

Definition col_any (h w : nat) (l : list bool) (j : nat) : bool :=
  existsb (fun i => pixel w l i j) (seq 0 h).

(** [i] is the first, respectively the last, index below [n] at which [P]
    holds. *)
Definition first_index (P : nat -> bool) (n i : nat) : Prop :=
  (i < n)%nat /\ P i = true /\ forall k, (k < i)%nat -> P k = false.

Definition last_index (P : nat -> bool) (n i : nat) : Prop :=
  (i < n)%nat /\ P i = true /\ forall k, (i < k < n)%nat -> P k = false.

(** The buffer of the plane [parse_bool_masks(a)[:, :, 0]] of a
    2-dimensional [a] with buffer [l]. *)
Definition plane_buf (h w : nat) (l : list bool) : list bool :=
  map (fun i => nth i l false) (seq 0 (h * w)).

(** The rows and the columns that hold a true value, as [np.where]
    lists them. *)
Definition true_rows (h w : nat) (l : list bool) : list nat :=
  nonzero_from (BoolBuf (map (row_any w l) (seq 0 h))) 0 h.

Definition true_cols (h w : nat) (l : list bool) : list nat :=
  nonzero_from (BoolBuf (map (col_any h w l) (seq 0 w))) 0 w.

(** The numbers below [n], for checks by enumeration. *)
Definition N_below (n : nat) : list N := map N.of_nat (seq 0 n).

(** What decoding needs of a 6-bit group [s]: its character is in the
    alphabet at position [s], is not the padding and is ASCII. *)
Definition sextet_ok (s : N) : bool :=
  match b64_value (b64_char s) with
  | Some s' => (s' =? s)%N
  | None => false
  end
  && negb (Byte.eqb (b64_char s) b64_pad)
  && (Byte.to_N (b64_char s) <? 128)%N.

(** What decoding needs of two neighbouring bytes [x], [y]: the groups
    are 6 bits wide and the bits of a byte split over two groups join
    again. *)
Definition pair_ok (x y : N) : bool :=
  (sx0 x <? 64)%N && (sx1 x y <? 64)%N && (sx2 x y <? 64)%N && (sx3 x <? 64)%N
  && (N.lor (N.shiftl (sx0 x) 2) (N.shiftr (sx1 x y) 4) =? x)%N
  && (N.land (sx1 x y) 15 =? N.shiftr y 4)%N
  && (N.lor (N.shiftl (N.shiftr x 4) 4) (N.shiftr (sx2 x y) 2) =? x)%N
  && (N.land (sx2 x y) 3 =? N.shiftr y 6)%N
  && (N.lor (N.shiftl (N.shiftr x 6) 6) (sx3 x) =? x)%N.

(** The image [create_uploadable] hands to the PNG writer for a mask with
    buffer [l]. *)
Definition mask_image (h w : nat) (l : list bool) : image :=
  Image_convert_1 (Image_fromarray h w (uint8_mul (astype_uint8 (BoolBuf l)) 255)).

(** A black or a white pixel. *)
Definition bilevel (p : Z) : Prop := p = 0 \/ p = 255.

(** The bytes [true -> 255], [false -> 0] of a mask. *)
Definition mask_bytes (l : list bool) : list Z :=
  map (fun x : bool => if x then 255 else 0) l.

(** ** Concrete stand-ins for the external parts *)

(** A plain container for images of up to 255 x 255 pixels: a byte for
    the mode, a byte for each extent, then one byte per pixel.  Larger
    images are refused. *)
Definition raw_save (im : image) : result (list byte) :=
  if (xsize im <? 256)%nat && (ysize im <? 256)%nat then
    Ok ((match im_mode im with Mode_1 => Byte.x01 | Mode_L => Byte.x08 end)
        :: byte_of_N (N.of_nat (xsize im))
        :: byte_of_N (N.of_nat (ysize im))
        :: map (fun p => byte_of_N (Z.to_N p)) (pixels im))
  else Raise (mk_exn ValueError "image too large for the container" []).

Definition raw_open (data : list byte) : result image :=
  match data with
  | m :: x :: y :: px =>
      Ok (mk_image (if Byte.eqb m Byte.x01 then Mode_1 else Mode_L)
            (N.to_nat (Byte.to_N x)) (N.to_nat (Byte.to_N y))
            (map (fun c => Z.of_N (Byte.to_N c)) px))
  | _ => Raise (mk_exn OSError "cannot identify image file" [])
  end.

(** [int(x)] on the numbers among the values; other objects are refused. *)
Definition int_of_number (v : pyval) : result Z :=
  match v with
  | PyInt z => Ok z
  | PyBool b => Ok (if b then 1 else 0)
  | _ => Raise (mk_exn TypeError "int() argument must be a number, not '{}'"
                  [FType (type_of v)])
  end.

(** Structural comparison of integers, strings and [None], for a lookup
    table of such values. *)
Definition eq_of_atoms (x y : pyval) : result bool :=
  match x, y with
  | PyInt a, PyInt b => Ok (a =? b)
  | PyStr a, PyStr b => Ok (String.eqb a b)
  | PyNone, PyNone => Ok true
  | _, _ => Ok false
  end.

(** The text [key] occurs in [msg]. *)
Definition mentions (key msg : string) : bool :=
  match String.index 0 key msg with
  | Some _ => true
  | None => false
  end.

(** The mask has a true value; its only true value is at [(r, c)]; all
    its values are true. *)
Definition has_true (h w : nat) (l : list bool) : Prop :=
  exists i j, (i < h)%nat /\ (j < w)%nat /\ pixel w l i j = true.

Definition only_true_at (h w : nat) (l : list bool) (r c : nat) : Prop :=
  (r < h)%nat /\ (c < w)%nat /\
  forall i j, (i < h)%nat -> (j < w)%nat -> (pixel w l i j = true <-> i = r /\ j = c).

Definition all_true (h w : nat) (l : list bool) : Prop :=
  forall i j, (i < h)%nat -> (j < w)%nat -> pixel w l i j = true.

Definition all_false (h w : nat) (l : list bool) : Prop :=
  forall i j, (i < h)%nat -> (j < w)%nat -> pixel w l i j = false.

(** ** Notions for the further properties *)

(** The buffer of plane [0] of a stack of [n] masks of shape [(h, w)]
    with buffer [l]: element [(i, j, 0)] is at position [(i * w + j) * n]. *)
Definition plane0_of (h w n : nat) (l : list bool) : list bool :=
  map (fun q => nth (q * n) l false) (seq 0 (h * w)).

(** Every true value of the first mask is a true value of the second. *)
Definition mask_le (h w : nat) (l1 l2 : list bool) : Prop :=
  forall i j, (i < h)%nat -> (j < w)%nat -> pixel w l1 i j = true -> pixel w l2 i j = true.

(** The value is a NumPy array of dtype [bool]. *)
Definition is_bool_array (v : pyval) : bool :=
  match v with
  | PyArr a => dtype_eqb (dtype_of a) dt_bool
  | _ => false
  end.

(** The shapes that have a plane [[:, :, 0]] once a 2-dimensional one
    got its third axis: two axes, or at least three with a non-empty
    third. *)
Definition has_plane0 (s : list nat) : bool :=
  match s with
  | [_; _] => true
  | _ :: _ :: n :: _ => negb (Nat.eqb n 0)
  | _ => false
  end.

Definition shape_of (v : pyval) : list nat :=
  match v with
  | PyArr a => shape a
  | _ => []
  end.


(** * Properties *)

(** ** Index lists of true elements *)

Section Nonzero.
Variable b : buffer.

Lemma nonzero_from_spec i n x :
  x ∈ nonzero_from b i n <-> (i <= x < i + n)%nat /\ truth_at b x = true.
Proof.
  revert i. induction n as [|n IH]; intros i; simpl.
  - rewrite elem_of_nil. lia.
  - destruct (truth_at b i) eqn:Hi.
    + rewrite elem_of_cons, IH. split.
      * intros [->|[? ?]]; split; auto; lia.
      * intros [Hr Hx]. destruct (decide (x = i)) as [->|Hne]; [now left|].
        right. split; [lia|done].
    + rewrite IH. split.
      * intros [? ?]; split; [lia|done].
      * intros [Hr Hx]. split; [|done].
        destruct (decide (x = i)) as [->|Hne]; [congruence|lia].
Qed.

Lemma nonzero_from_nil i n :
  nonzero_from b i n = [] <-> forall k, (i <= k < i + n)%nat -> truth_at b k = false.
Proof.
  split.
  - intros Hnil k Hk. destruct (truth_at b k) eqn:E; [|done].
    assert (k ∈ nonzero_from b i n) as Hin by (apply nonzero_from_spec; auto).
    rewrite Hnil in Hin. by apply elem_of_nil in Hin.
  - intros Hall. destruct (nonzero_from b i n) as [|x rest] eqn:E; [done|].
    assert (x ∈ nonzero_from b i n) as Hin by (rewrite E; left).
    apply nonzero_from_spec in Hin as [Hr Hx]. rewrite Hall in Hx; [done|lia].
Qed.

(** The list starts at the first true position. *)
Lemma nonzero_from_head i n x rest :
  nonzero_from b i n = x :: rest ->
  (i <= x < i + n)%nat /\ truth_at b x = true
  /\ forall k, (i <= k < x)%nat -> truth_at b k = false.
Proof.
  revert i. induction n as [|n IH]; intros i; simpl; [done|].
  destruct (truth_at b i) eqn:Hi.
  - intros [= <- _]. repeat split; auto; lia.
  - intros H. apply IH in H as (Hr & Hx & Hlt). repeat split; [lia..|done|].
    intros k Hk. destruct (decide (k = i)) as [->|Hne]; [done|]. apply Hlt. lia.
Qed.

(** The list ends at the last true position. *)
Lemma nonzero_from_last i n x rest d :
  nonzero_from b i n = x :: rest ->
  (i <= List.last (x :: rest) d < i + n)%nat
  /\ truth_at b (List.last (x :: rest) d) = true
  /\ forall k, (List.last (x :: rest) d < k < i + n)%nat -> truth_at b k = false.
Proof.
  revert i x rest. induction n as [|n IH]; intros i x rest; cbn [nonzero_from]; [done|].
  destruct (truth_at b i) eqn:Hi.
  - intros [= <- Hrest]. destruct rest as [|x' rest'].
    + cbn [List.last]. repeat split; [lia..|done|].
      intros k Hk. apply (proj1 (nonzero_from_nil _ _) Hrest). lia.
    + destruct (IH _ _ _ Hrest) as (Hr & Hy & Hgt).
      change (List.last (i :: x' :: rest') d) with (List.last (x' :: rest') d).
      repeat split; [lia..|done|].
      intros k Hk. apply Hgt. lia.
  - intros H. destruct (IH _ _ _ H) as (Hr & Hy & Hgt).
    repeat split; [lia..|done|].
    intros k Hk. apply Hgt. lia.
Qed.
End Nonzero.

(** ** The NumPy operations on a 2-dimensional boolean array *)

Lemma nth_map_seq {A} (f : nat -> A) (n p : nat) (d : A) :
  (p < n)%nat -> nth p (map f (seq 0 n)) d = f p.
Proof.
  intros Hp. rewrite (nth_indep _ d (f 0%nat)) by (rewrite length_map, length_seq; lia).
  rewrite map_nth. f_equal. apply seq_nth. lia.
Qed.

Lemma existsb_ext_in {A} (f g : A -> bool) (l : list A) :
  (forall x, In x l -> f x = g x) -> existsb f l = existsb g l.
Proof.
  induction l as [|a l IH]; intros Hfg; simpl; [done|].
  rewrite Hfg by (by left). rewrite IH; [done|]. intros x Hx. apply Hfg. by right.
Qed.

Lemma flat_index_lt (h w i j : nat) : (i < h)%nat -> (j < w)%nat -> (i * w + j < h * w)%nat.
Proof. intros Hi Hj. nia. Qed.

Section Plane.
Variables (h w : nat) (l : list bool).

Lemma plane_buf_pixel i j :
  (i < h)%nat -> (j < w)%nat -> nth (i * w + j) (plane_buf h w l) false = pixel w l i j.
Proof.
  intros Hi Hj. unfold plane_buf, pixel.
  apply (nth_map_seq (fun i => nth i l false)). by apply flat_index_lt.
Qed.

Lemma parse_2d :
  parse_bool_masks (bool_array h w l) = Ok (mk_ndarray [h; w; 1%nat] (BoolBuf l)).
Proof. reflexivity. Qed.

Lemma plane0_2d :
  index_plane0 (mk_ndarray [h; w; 1%nat] (BoolBuf l))
  = Ok (mk_ndarray [h; w] (BoolBuf (plane_buf h w l))).
Proof.
  unfold index_plane0, plane_buf. cbn [shape buf Nat.eqb prod_shape foldr gather].
  do 3 f_equal. rewrite map_map. rewrite Nat.mul_1_r.
  apply map_ext. intros q.
  by rewrite Nat.div_1_r, Nat.mod_1_r, !Nat.mul_1_r, Nat.add_0_r.
Qed.

Lemma rows_2d :
  np_any 1 (mk_ndarray [h; w] (BoolBuf (plane_buf h w l)))
  = Ok (mk_ndarray [h] (BoolBuf (map (row_any w l) (seq 0 h)))).
Proof.
  unfold np_any.
  cbn [shape buf lookup list_lookup take drop prod_shape foldr app truth_at].
  do 3 f_equal. rewrite !Nat.mul_1_r.
  apply map_ext_in. intros q Hq%in_seq. unfold row_any.
  rewrite Nat.div_1_r, Nat.mod_1_r.
  apply existsb_ext_in. intros k Hk%in_seq.
  rewrite Nat.mul_1_r, Nat.add_0_r. apply plane_buf_pixel; lia.
Qed.

Lemma cols_2d :
  np_any 0 (mk_ndarray [h; w] (BoolBuf (plane_buf h w l)))
  = Ok (mk_ndarray [w] (BoolBuf (map (col_any h w l) (seq 0 w)))).
Proof.
  unfold np_any.
  cbn [shape buf lookup list_lookup take drop prod_shape foldr app truth_at].
  do 3 f_equal. rewrite !Nat.mul_1_r, Nat.mul_1_l.
  apply map_ext_in. intros q Hq%in_seq. unfold col_any.
  rewrite Nat.div_small, Nat.mod_small by lia.
  apply existsb_ext_in. intros k Hk%in_seq.
  apply plane_buf_pixel; lia.
Qed.

(** [np.where(v)[0]] of a 1-dimensional boolean [v] lists the true
    positions of [v]. *)
Lemma where_1d (n : nat) (v : list bool) :
  np_where_0 (mk_ndarray [n] (BoolBuf v))
  = Ok (map Z.of_nat (nonzero_from (BoolBuf v) 0 (length v))).
Proof.
  unfold np_where_0. cbn [shape buf buf_size prod_shape foldr].
  f_equal. apply map_ext. intros f. by rewrite Nat.div_1_r.
Qed.

Lemma truth_at_map_seq (P : nat -> bool) (n k : nat) :
  (k < n)%nat -> truth_at (BoolBuf (map P (seq 0 n))) k = P k.
Proof. intros Hk. cbn [truth_at]. by apply nth_map_seq. Qed.

Lemma bounds_2d :
  get_bool_mask_bounds (bool_array h w l)
  = Ok (try_except
          ('(t, b) ← take_first_last (map Z.of_nat (true_rows h w l));
           '(le, r) ← take_first_last (map Z.of_nat (true_cols h w l));
           Ok (mk_bounds (NInt64 t) (NInt64 b) (NInt64 le) (NInt64 r)))
          (mk_bounds (NInt 0) (NInt 0) (NInt 0) (NInt 0))).
Proof.
  unfold get_bool_mask_bounds. rewrite parse_2d. unfold mbind at 1, result_bind at 1.
  rewrite plane0_2d. unfold mbind at 1, result_bind at 1.
  rewrite rows_2d. unfold mbind at 1, result_bind at 1.
  rewrite cols_2d. unfold mbind at 1, result_bind at 1.
  rewrite !where_1d, !length_map, !length_seq. reflexivity.
Qed.
End Plane.


(** ** First and last true row and column *)

Lemma first_index_unique P n i i' : first_index P n i -> first_index P n i' -> i = i'.
Proof.
  intros (Hi & HP & Hlt) (Hi' & HP' & Hlt').
  destruct (Nat.lt_trichotomy i i') as [H|[H|H]]; [|done|].
  - rewrite (Hlt' _ H) in HP. done.
  - rewrite (Hlt _ H) in HP'. done.
Qed.

Lemma last_index_unique P n i i' : last_index P n i -> last_index P n i' -> i = i'.
Proof.
  intros (Hi & HP & Hgt) (Hi' & HP' & Hgt').
  destruct (Nat.lt_trichotomy i i') as [H|[H|H]]; [|done|].
  - rewrite (Hgt i') in HP'; [done|lia].
  - rewrite (Hgt' i) in HP; [done|lia].
Qed.

Lemma last_map {A B} (f : A -> B) (l : list A) (d : A) :
  List.last (map f l) (f d) = f (List.last l d).
Proof.
  induction l as [|a l IH]; [done|]. destruct l as [|a' l']; [done|].
  change (List.last (f a' :: map f l') (f d) = f (List.last (a' :: l') d)). exact IH.
Qed.

Lemma take_first_last_cons (x : nat) (rest : list nat) :
  take_first_last (map Z.of_nat (x :: rest))
  = Ok (Z.of_nat x, Z.of_nat (List.last (x :: rest) x)).
Proof.
  unfold take_first_last. cbn [map]. do 2 f_equal.
  change (Z.of_nat x :: map Z.of_nat rest) with (map Z.of_nat (x :: rest)).
  apply last_map.
Qed.

(** The true positions of a predicate tabulated over [0 .. n - 1] start at
    its first and end at its last index. *)
Lemma nonzero_tabulate_ends (P : nat -> bool) (n x : nat) (rest : list nat) :
  nonzero_from (BoolBuf (map P (seq 0 n))) 0 n = x :: rest ->
  first_index P n x /\ last_index P n (List.last (x :: rest) x).
Proof.
  intros E. split.
  - destruct (nonzero_from_head _ _ _ _ _ E) as (Hr & Hx & Hlt).
    repeat split; [lia| |].
    + by rewrite truth_at_map_seq in Hx by lia.
    + intros k Hk. rewrite <- (truth_at_map_seq P n k) by lia. apply Hlt. lia.
  - destruct (nonzero_from_last _ _ _ _ _ x E) as (Hr & Hx & Hgt).
    repeat split; [lia| |].
    + by rewrite truth_at_map_seq in Hx by lia.
    + intros k Hk. rewrite <- (truth_at_map_seq P n k) by lia. apply Hgt. lia.
Qed.

Lemma nonzero_tabulate_nil (P : nat -> bool) (n : nat) :
  nonzero_from (BoolBuf (map P (seq 0 n))) 0 n = [] <->
  forall k, (k < n)%nat -> P k = false.
Proof.
  rewrite nonzero_from_nil. split; intros H k Hk.
  - rewrite <- (truth_at_map_seq P n k) by lia. apply H. lia.
  - rewrite truth_at_map_seq by lia. apply H. lia.
Qed.

Lemma row_any_true (w : nat) (l : list bool) (i : nat) :
  row_any w l i = true <-> exists j, (j < w)%nat /\ pixel w l i j = true.
Proof.
  unfold row_any. rewrite existsb_exists. split.
  - intros (j & Hj%in_seq & Hp). exists j. split; [lia|done].
  - intros (j & Hj & Hp). exists j. split; [apply in_seq; lia|done].
Qed.

Lemma col_any_true (h w : nat) (l : list bool) (j : nat) :
  col_any h w l j = true <-> exists i, (i < h)%nat /\ pixel w l i j = true.
Proof.
  unfold col_any. rewrite existsb_exists. split.
  - intros (i & Hi%in_seq & Hp). exists i. split; [lia|done].
  - intros (i & Hi & Hp). exists i. split; [apply in_seq; lia|done].
Qed.

Lemma row_any_false (w : nat) (l : list bool) (i : nat) :
  row_any w l i = false <-> forall j, (j < w)%nat -> pixel w l i j = false.
Proof.
  rewrite <- not_true_iff_false, row_any_true. split.
  - intros H j Hj. apply not_true_iff_false. intros Hp. apply H. eauto.
  - intros H (j & Hj & Hp). rewrite H in Hp; done.
Qed.

Lemma col_any_false (h w : nat) (l : list bool) (j : nat) :
  col_any h w l j = false <-> forall i, (i < h)%nat -> pixel w l i j = false.
Proof.
  rewrite <- not_true_iff_false, col_any_true. split.
  - intros H i Hi. apply not_true_iff_false. intros Hp. apply H. eauto.
  - intros H (i & Hi & Hp). rewrite H in Hp; done.
Qed.

Section Bounds.
Variables (h w : nat) (l : list bool).

(** With a true value in the mask, both index lists are non-empty and
    the four edges are their ends. *)
Lemma bounds_of_has_true :
  has_true h w l ->
  exists t b le r : nat,
    get_bool_mask_bounds (bool_array h w l)
    = Ok (mk_bounds (NInt64 (Z.of_nat t)) (NInt64 (Z.of_nat b))
                    (NInt64 (Z.of_nat le)) (NInt64 (Z.of_nat r)))
    /\ first_index (row_any w l) h t /\ last_index (row_any w l) h b
    /\ first_index (col_any h w l) w le /\ last_index (col_any h w l) w r.
Proof.
  intros (i & j & Hi & Hj & Hp). rewrite bounds_2d.
  destruct (true_rows h w l) as [|x rest] eqn:Er.
  { apply nonzero_tabulate_nil with (k := i) in Er; [|done].
    apply row_any_false with (j := j) in Er; [|done]. congruence. }
  destruct (true_cols h w l) as [|y rest'] eqn:Ec.
  { apply nonzero_tabulate_nil with (k := j) in Ec; [|done].
    apply col_any_false with (i := i) in Ec; [|done]. congruence. }
  rewrite !take_first_last_cons.
  apply nonzero_tabulate_ends in Er as [? ?]. apply nonzero_tabulate_ends in Ec as [? ?].
  eexists _, _, _, _. split; [reflexivity|done].
Qed.

(** Without one, the first index list is empty, the subscript
    [[0, -1]] raises and the handler supplies the zeros. *)
Lemma bounds_of_all_false :
  all_false h w l ->
  get_bool_mask_bounds (bool_array h w l)
  = Ok (mk_bounds (NInt 0) (NInt 0) (NInt 0) (NInt 0)).
Proof.
  intros Hf. rewrite bounds_2d.
  assert (true_rows h w l = []) as ->; [|reflexivity].
  apply nonzero_tabulate_nil. intros k Hk. apply row_any_false. auto.
Qed.
End Bounds.

(** ** The bounds of a mask with a true value *)

(** C2.  For a 2-dimensional boolean mask of [h] rows and [w] columns
    with at least one true value, [get_bool_mask_bounds] returns the first
    and the last row that holds a true value as [top] and [bottom], and
    the first and the last column that holds one as [left] and [right].
    If the only true value is at [(r0, c0)] the four edges are [r0], [r0],
    [c0], [c0]; if every value is true they are [0], [h - 1], [0],
    [w - 1]. *)
Theorem get_bool_mask_bounds_first_last (h w : nat) (l : list bool) :
  has_true h w l ->
  exists t b le r : nat,
    get_bool_mask_bounds (bool_array h w l)
    = Ok (mk_bounds (NInt64 (Z.of_nat t)) (NInt64 (Z.of_nat b))
                    (NInt64 (Z.of_nat le)) (NInt64 (Z.of_nat r)))
    /\ first_index (row_any w l) h t /\ last_index (row_any w l) h b
    /\ first_index (col_any h w l) w le /\ last_index (col_any h w l) w r
    /\ (forall r0 c0, only_true_at h w l r0 c0 -> t = r0 /\ b = r0 /\ le = c0 /\ r = c0)
    /\ (all_true h w l -> t = 0 /\ b = h - 1 /\ le = 0 /\ r = w - 1)%nat.
Proof.
  intros Hany.
  destruct (bounds_of_has_true h w l Hany) as (t & b & le & r & E & Ht & Hb & Hl & Hr).
  exists t, b, le, r. do 5 (split; [done|]). split.
  - intros r0 c0 (Hr0 & Hc0 & Honly).
    assert (forall i, (i < h)%nat -> row_any w l i = true <-> i = r0) as Hrow.
    { intros i Hi. rewrite row_any_true. split.
      - intros (j & Hj & Hp). by apply (Honly i j) in Hp as [-> _].
      - intros ->. exists c0. split; [done|]. by apply Honly. }
    assert (forall j, (j < w)%nat -> col_any h w l j = true <-> j = c0) as Hcol.
    { intros j Hj. rewrite col_any_true. split.
      - intros (i & Hi & Hp). by apply (Honly i j) in Hp as [_ ->].
      - intros ->. exists r0. split; [done|]. by apply Honly. }
    destruct Ht as (? & Ht & _), Hb as (? & Hb & _), Hl as (? & Hl & _), Hr as (? & Hr & _).
    apply Hrow in Ht, Hb; [|done..]. apply Hcol in Hl, Hr; [|done..]. done.
  - intros Hall.
    destruct Hany as (i & j & Hi & Hj & _).
    assert (forall i, (i < h)%nat -> row_any w l i = true) as Hrow.
    { intros i' Hi'. apply row_any_true. exists j. split; [done|]. by apply Hall. }
    assert (forall j, (j < w)%nat -> col_any h w l j = true) as Hcol.
    { intros j' Hj'. apply col_any_true. exists i. split; [done|]. by apply Hall. }
    repeat split.
    + apply (first_index_unique _ _ _ _ Ht). repeat split; [lia|apply Hrow; lia|lia].
    + apply (last_index_unique _ _ _ _ Hb). repeat split; [lia|apply Hrow; lia|lia].
    + apply (first_index_unique _ _ _ _ Hl). repeat split; [lia|apply Hcol; lia|lia].
    + apply (last_index_unique _ _ _ _ Hr). repeat split; [lia|apply Hcol; lia|lia].
Qed.

(** The 4 x 4 mask with a 2 x 2 square of true values at rows 1-2,
    columns 1-2. *)
Lemma get_bool_mask_bounds_first_last_witness :
  exists t b le r : nat,
    get_bool_mask_bounds
      (bool_array 4 4 [false; false; false; false;
                       false; true;  true;  false;
                       false; true;  true;  false;
                       false; false; false; false])
    = Ok (mk_bounds (NInt64 (Z.of_nat t)) (NInt64 (Z.of_nat b))
                    (NInt64 (Z.of_nat le)) (NInt64 (Z.of_nat r)))
    /\ (t, b, le, r) = (1, 2, 1, 2)%nat.
Proof.
  destruct (get_bool_mask_bounds_first_last 4 4
              [false; false; false; false;
               false; true;  true;  false;
               false; true;  true;  false;
               false; false; false; false])
    as (t & b & le & r & E & _).
  - exists 1%nat, 1%nat. split; [lia|split; [lia|reflexivity]].
  - exists t, b, le, r. split; [exact E|].
    assert (get_bool_mask_bounds
              (bool_array 4 4 [false; false; false; false;
                               false; true;  true;  false;
                               false; true;  true;  false;
                               false; false; false; false])
            = Ok (mk_bounds (NInt64 1) (NInt64 2) (NInt64 1) (NInt64 2))) as E'
      by (vm_compute; reflexivity).
    rewrite E' in E. injection E as Et Eb El Er.
    f_equal; [f_equal; [f_equal|]|]; lia.
Defined.

(** ** The 1-bit image of a mask *)

Lemma nth_replicate_0 (n i : nat) : nth i (replicate n 0) 0 = 0.
Proof. revert i. induction n as [|n IH]; intros [|i]; simpl; auto. Qed.

(** On black and white pixels the error diffusion has nothing to diffuse:
    the error row stays zero and the row comes out unchanged. *)
Lemma dither_row_bilevel (n : nat) (inp : list Z) (x : nat) :
  Forall bilevel inp ->
  dither_row inp x 0 0 0 (replicate n 0) = (inp, replicate n 0).
Proof.
  revert x. induction inp as [|p inp IH]; intros x Hall; cbn [dither_row].
  - by rewrite insert_replicate.
  - apply Forall_cons in Hall as [Hp Hall].
    rewrite nth_replicate_0.
    assert (CLIP8 (p + Z.quot (0 + 0) 16) = p) as -> by (destruct Hp as [->| ->]; reflexivity).
    assert ((if 128 <? p then 255 else 0) = p) as -> by (destruct Hp as [->| ->]; reflexivity).
    replace (p - p) with 0 by lia. cbn [Z.add].
    rewrite insert_replicate, IH by done. reflexivity.
Qed.

Lemma dither_rows_bilevel (w n : nat) (pix : list Z) :
  length pix = (n * w)%nat -> Forall bilevel pix ->
  dither_rows w n pix (replicate (S w) 0) = pix.
Proof.
  revert pix. induction n as [|n IH]; intros pix Hlen Hall; cbn [dither_rows].
  - by destruct pix.
  - rewrite dither_row_bilevel by (by apply Forall_take).
    rewrite IH; [apply take_drop| |by apply Forall_drop].
    rewrite length_drop. lia.
Qed.

Lemma mask_bytes_bilevel (l : list bool) : Forall bilevel (mask_bytes l).
Proof.
  induction l as [|x l IH]; constructor; [|exact IH].
  destruct x; [by right|by left].
Qed.

Lemma uint8_mul_255_mask (l : list bool) :
  uint8_mul (astype_uint8 (BoolBuf l)) 255 = mask_bytes l.
Proof.
  unfold uint8_mul, mask_bytes. cbn [astype_uint8]. rewrite map_map.
  apply map_ext. by intros [].
Qed.

(** The image written for a mask is the 1-bit image with a white pixel
    for every true value. *)
Lemma mask_image_eq (h w : nat) (l : list bool) :
  length l = (h * w)%nat ->
  mask_image h w l = mk_image Mode_1 w h (mask_bytes l).
Proof.
  intros Hlen. unfold mask_image, Image_convert_1, Image_fromarray.
  cbn [im_mode xsize ysize pixels]. rewrite uint8_mul_255_mask. f_equal.
  apply dither_rows_bilevel; [|apply mask_bytes_bilevel].
  unfold mask_bytes. by rewrite length_map.
Qed.

Lemma threshold_mask_bytes (l : list bool) :
  map (fun p => p =? 255) (mask_bytes l) = l.
Proof.
  unfold mask_bytes. rewrite map_map. rewrite <- (map_id l) at 2.
  apply map_ext. by intros [].
Qed.

(** ** base64 *)

Lemma forallb_N_below (P : N -> bool) (n : nat) :
  forallb P (N_below n) = true -> forall k, (k < N.of_nat n)%N -> P k = true.
Proof.
  intros H k Hk. rewrite List.forallb_forall in H. apply H.
  apply in_map_iff. exists (N.to_nat k). split; [lia|]. apply in_seq. lia.
Qed.

Lemma sextet_ok_all (s : N) : (s < 64)%N -> sextet_ok s = true.
Proof.
  apply (forallb_N_below sextet_ok 64). vm_compute. reflexivity.
Qed.

Lemma pair_ok_all (x y : byte) : pair_ok (Byte.to_N x) (Byte.to_N y) = true.
Proof.
  assert (forallb (fun a => forallb (pair_ok a) (N_below 256)) (N_below 256) = true) as H
    by (vm_compute; reflexivity).
  pose proof (Byte.to_N_bounded x). pose proof (Byte.to_N_bounded y).
  apply (forallb_N_below (pair_ok (Byte.to_N x)) 256); [|lia].
  apply (forallb_N_below (fun a => forallb (pair_ok a) (N_below 256)) 256 H). lia.
Qed.

Lemma pair_ok_facts (x y : byte) :
  let X := Byte.to_N x in
  let Y := Byte.to_N y in
  ((sx0 X < 64)%N /\ (sx1 X Y < 64)%N /\ (sx2 X Y < 64)%N /\ (sx3 X < 64)%N)
  /\ N.lor (N.shiftl (sx0 X) 2) (N.shiftr (sx1 X Y) 4) = X
  /\ N.land (sx1 X Y) 15 = N.shiftr Y 4
  /\ N.lor (N.shiftl (N.shiftr X 4) 4) (N.shiftr (sx2 X Y) 2) = X
  /\ N.land (sx2 X Y) 3 = N.shiftr Y 6
  /\ N.lor (N.shiftl (N.shiftr X 6) 6) (sx3 X) = X.
Proof.
  intros X Y. pose proof (pair_ok_all x y) as H. unfold pair_ok in H. fold X Y in H.
  rewrite !andb_true_iff, !N.ltb_lt, !N.eqb_eq in H. tauto.
Qed.

Lemma byte_of_to_N (x : byte) : byte_of_N (Byte.to_N x) = x.
Proof. unfold byte_of_N. by rewrite Byte.of_to_N. Qed.

Lemma b64_value_char (s : N) : (s < 64)%N -> b64_value (b64_char s) = Some s.
Proof.
  intros Hs. pose proof (sextet_ok_all s Hs) as H. unfold sextet_ok in H.
  rewrite !andb_true_iff in H. destruct H as [[H _] _].
  destruct (b64_value (b64_char s)) as [s'|]; [|done].
  by apply N.eqb_eq in H as ->.
Qed.

Lemma b64_char_not_pad (s : N) : (s < 64)%N -> Byte.eqb (b64_char s) b64_pad = false.
Proof.
  intros Hs. pose proof (sextet_ok_all s Hs) as H. unfold sextet_ok in H.
  rewrite !andb_true_iff in H. destruct H as [[_ H] _]. by apply negb_true_iff in H.
Qed.

Lemma b64_char_ascii (s : N) : (Byte.to_N (b64_char s) < 128)%N.
Proof.
  destruct (N.ltb_spec s 64) as [Hs|Hs].
  - pose proof (sextet_ok_all s Hs) as H. unfold sextet_ok in H.
    rewrite !andb_true_iff in H. destruct H as [_ H]. by apply N.ltb_lt in H.
  - unfold b64_char. rewrite nth_overflow; [done|].
    change (length b64_alphabet) with 64%nat. lia.
Qed.

(** The three bytes come back from their four groups. *)
Lemma b64_byte0_sx (a b : byte) :
  b64_byte0 (sx0 (Byte.to_N a)) (sx1 (Byte.to_N a) (Byte.to_N b)) = a.
Proof.
  unfold b64_byte0. destruct (pair_ok_facts a b) as (_ & -> & _). apply byte_of_to_N.
Qed.

Lemma b64_byte1_sx (a b c : byte) :
  b64_byte1 (sx1 (Byte.to_N a) (Byte.to_N b)) (sx2 (Byte.to_N b) (Byte.to_N c)) = b.
Proof.
  unfold b64_byte1. destruct (pair_ok_facts a b) as (_ & _ & -> & _).
  destruct (pair_ok_facts b c) as (_ & _ & _ & -> & _). apply byte_of_to_N.
Qed.

Lemma b64_byte2_sx (b c : byte) :
  b64_byte2 (sx2 (Byte.to_N b) (Byte.to_N c)) (sx3 (Byte.to_N c)) = c.
Proof.
  unfold b64_byte2. destruct (pair_ok_facts b c) as (_ & _ & _ & _ & -> & _).
  destruct (pair_ok_facts c c) as (_ & _ & _ & _ & _ & ->). apply byte_of_to_N.
Qed.

Lemma sx_bounds (a b : byte) :
  (sx0 (Byte.to_N a) < 64)%N /\ (sx1 (Byte.to_N a) (Byte.to_N b) < 64)%N
  /\ (sx2 (Byte.to_N a) (Byte.to_N b) < 64)%N /\ (sx3 (Byte.to_N a) < 64)%N.
Proof. by destruct (pair_ok_facts a b) as (? & _). Qed.

(** Induction over a list three elements at a time. *)
Lemma list_ind3 {A} (P : list A -> Prop) :
  P [] -> (forall a, P [a]) -> (forall a b, P [a; b]) ->
  (forall a b c rest, P rest -> P (a :: b :: c :: rest)) ->
  forall l, P l.
Proof.
  intros H0 H1 H2 H3.
  fix IH 1. intros [|a [|b [|c rest]]]; [done..|].
  apply H3, IH.
Qed.

(** Decoding undoes encoding. *)
Lemma b64decode_b64encode (bs : list byte) : b64decode (b64encode bs) = Some bs.
Proof.
  induction bs as [|a|a b|a b c rest IH] using list_ind3.
  - reflexivity.
  - destruct (sx_bounds a Byte.x00) as (H0 & H1 & _).
    cbn [b64encode b64decode]. change (Byte.to_N Byte.x00) with 0%N in H1.
    rewrite !b64_value_char by done. cbn [mbind option_bind].
    change (Byte.eqb b64_pad b64_pad) with true. cbn [andb is_nil].
    f_equal. f_equal. apply (b64_byte0_sx a Byte.x00).
  - destruct (sx_bounds a b) as (H0 & H1 & _).
    destruct (sx_bounds b Byte.x00) as (_ & _ & H2 & _).
    cbn [b64encode b64decode]. change (Byte.to_N Byte.x00) with 0%N in H2.
    rewrite !b64_value_char by done. cbn [mbind option_bind].
    rewrite b64_char_not_pad by done.
    change (Byte.eqb b64_pad b64_pad) with true. cbn [andb is_nil].
    f_equal. f_equal; [apply b64_byte0_sx|]. f_equal. apply (b64_byte1_sx a b Byte.x00).
  - destruct (sx_bounds a b) as (H0 & H1 & _).
    destruct (sx_bounds b c) as (_ & _ & H2 & _).
    destruct (sx_bounds c c) as (_ & _ & _ & H3).
    cbn [b64encode b64decode].
    rewrite !b64_value_char by done. cbn [mbind option_bind].
    rewrite !b64_char_not_pad by done. cbn [andb].
    rewrite IH. cbn [mbind option_bind].
    by rewrite b64_byte0_sx, b64_byte1_sx, b64_byte2_sx.
Qed.

Lemma utf8_valid_ascii (bs : list byte) :
  Forall (fun c => (Byte.to_N c < 128)%N) bs -> utf8_valid 0 128 192 bs = true.
Proof.
  induction 1 as [|c bs Hc _ IH]; [done|]. cbn [utf8_valid].
  apply N.ltb_lt in Hc. by rewrite Hc.
Qed.

Lemma b64encode_ascii (bs : list byte) :
  Forall (fun c => (Byte.to_N c < 128)%N) (b64encode bs).
Proof.
  induction bs as [|a|a b|a b c rest IH] using list_ind3; cbn [b64encode];
    repeat (constructor; [first [apply b64_char_ascii | done]|]); first [done | constructor].
Qed.

(** The base64 text of any bytes is a [str]. *)
Lemma bytes_decode_utf8_b64 (bs : list byte) :
  bytes_decode_utf8 (b64encode bs) = Ok (String.string_of_list_byte (b64encode bs)).
Proof.
  unfold bytes_decode_utf8. by rewrite utf8_valid_ascii by apply b64encode_ascii.
Qed.

(** ** The uploadable of a 2-dimensional boolean mask *)

Lemma wrap64_small (z : Z) : - 2 ^ 63 <= z < 2 ^ 63 -> wrap64 z = z.
Proof. intros Hz. unfold wrap64. rewrite Z.mod_small; lia. Qed.

Lemma first_le_last (P : nat -> bool) (n i j : nat) :
  first_index P n i -> last_index P n j -> (i <= j < n)%nat.
Proof.
  intros (Hi & HP & _) (Hj & _ & Hgt). split; [|done].
  destruct (Nat.le_gt_cases i j) as [|Hlt]; [done|].
  rewrite (Hgt i) in HP; [done|lia].
Qed.

Lemma has_true_or_all_false (h w : nat) (l : list bool) :
  has_true h w l \/ all_false h w l.
Proof.
  destruct (true_rows h w l) as [|x rest] eqn:E.
  - right. intros i j Hi Hj.
    apply nonzero_tabulate_nil with (k := i) in E; [|done].
    by apply row_any_false with (j := j) in E.
  - left. apply nonzero_tabulate_ends in E as [(Hx & HP & _) _].
    apply row_any_true in HP as (j & Hj & Hp). by exists x, j.
Qed.

Lemma wf_2d (h w : nat) (l : list bool) :
  ndarray_wf (mk_ndarray [h; w] (BoolBuf l)) = true ->
  length l = (h * w)%nat /\ Z.of_nat h < 2 ^ 63 /\ Z.of_nat w < 2 ^ 63.
Proof.
  unfold ndarray_wf. cbn [shape buf buf_size prod_shape foldr forallb].
  rewrite !andb_true_iff, Nat.eqb_eq, !Z.ltb_lt. lia.
Qed.

(** The four edges are ordered and non-negative, and the two
    differences taken for the roi do not wrap. *)
Lemma bounds_ordered (h w : nat) (l : list bool) :
  Z.of_nat h < 2 ^ 63 -> Z.of_nat w < 2 ^ 63 ->
  exists bd,
    get_bool_mask_bounds (bool_array h w l) = Ok bd
    /\ 0 <= num_val (left bd) <= num_val (right bd)
    /\ 0 <= num_val (top bd) <= num_val (bottom bd)
    /\ num_val (num_sub (right bd) (left bd)) = num_val (right bd) - num_val (left bd)
    /\ num_val (num_sub (bottom bd) (top bd)) = num_val (bottom bd) - num_val (top bd).
Proof.
  intros Hh Hw. destruct (has_true_or_all_false h w l) as [Hany|Hnone].
  - destruct (bounds_of_has_true h w l Hany) as (t & b & le & r & E & Ht & Hb & Hl & Hr).
    pose proof (first_le_last _ _ _ _ Ht Hb). pose proof (first_le_last _ _ _ _ Hl Hr).
    eexists. split; [exact E|]. cbn [left right top bottom num_val num_sub].
    rewrite !wrap64_small by lia. lia.
  - eexists. split; [by apply bounds_of_all_false|].
    cbn [left right top bottom num_val num_sub]. lia.
Qed.

Section Uploadable.
Variable png_save : image -> result (list byte).
Variable py_int : pyval -> result Z.

(** The data URI written for a mask whose PNG file is [data]. *)
Lemma mask_data_uri_eq (h w : nat) (l : list bool) (data : list byte) :
  png_save (mask_image h w l) = Ok data ->
  mask_data_uri png_save h w (BoolBuf l)
  = Ok (data_uri_prefix +:+ String.string_of_list_byte (b64encode data)).
Proof.
  intros Hsave. unfold mask_data_uri. fold (mask_image h w l). rewrite Hsave.
  cbn [mbind result_bind]. by rewrite bytes_decode_utf8_b64.
Qed.

(** On a 2-dimensional boolean array the encoder returns the record
    built from the data URI, the shape, the bounds and the class id. *)
Lemma create_uploadable_2d (cls : class) (h w : nat) (l : list bool)
      (class_id : pyval) (data : list byte) (bd : bounds) (n : Z) :
  png_save (mask_image h w l) = Ok data ->
  get_bool_mask_bounds (bool_array h w l) = Ok bd ->
  py_int class_id = Ok n ->
  create_uploadable png_save py_int cls (bool_array h w l) class_id
  = Ok [("type", TYPE cls);
        ("format", PyStr "1UC1");
        ("annotation",
         PyDict
           [("mask", PyStr (data_uri_prefix +:+
                            String.string_of_list_byte (b64encode data)));
            ("width", PyInt (Z.of_nat w));
            ("height", PyInt (Z.of_nat h));
            ("score", PyNone);
            ("roi",
             PyDict
               [("xmin", PyInt (num_val (left bd)));
                ("xmax", PyInt (num_val (right bd)));
                ("ymin", PyInt (num_val (top bd)));
                ("ymax", PyInt (num_val (bottom bd)));
                ("width", PyInt (num_val (num_sub (right bd) (left bd))));
                ("height", PyInt (num_val (num_sub (bottom bd) (top bd))))])]);
        ("class_id", PyInt n)].
Proof.
  intros Hsave Hbd Hn. unfold create_uploadable, bool_array.
  cbn [dtype_of buf shape dtype_eqb length Nat.eqb py_assert mbind result_bind].
  rewrite (mask_data_uri_eq _ _ _ _ Hsave). fold (bool_array h w l). rewrite Hbd, Hn.
  reflexivity.
Qed.
End Uploadable.

(** ** The claims on the encoder *)

(** C1.  Round trip.  For a 2-dimensional boolean array [A] of shape
    [(h, w)], the data-URI string that [create_uploadable] stores under
    [annotation.mask] decodes back to [A]: stripping the data-URI prefix,
    base64-decoding, opening the image and thresholding [pixel == 255]
    gives an array equal to [A] in shape and in every element.  The PNG
    writer and reader are Pillow's; what is used of them is that the
    writer produces a file for the mask image and that the reader restores
    the image from that file. *)
Theorem mask_round_trip
    (png_save : image -> result (list byte)) (png_open : list byte -> result image)
    (py_int : pyval -> result Z) (cls : class)
    (h w : nat) (l : list bool) (class_id : pyval) (data : list byte) (n : Z) :
  ndarray_wf (mk_ndarray [h; w] (BoolBuf l)) = true ->
  png_save (mask_image h w l) = Ok data ->
  png_open data = Ok (mask_image h w l) ->
  py_int class_id = Ok n ->
  exists u ann s,
    create_uploadable png_save py_int cls (bool_array h w l) class_id = Ok u
    /\ dict_get "annotation" u = Some (PyDict ann)
    /\ dict_get "mask" ann = Some (PyStr s)
    /\ mask_bool png_open s = Ok (mk_ndarray [h; w] (BoolBuf l)).
Proof.
  intros (Hlen & Hh & Hw)%wf_2d Hsave Hopen Hn.
  destruct (bounds_ordered h w l Hh Hw) as (bd & Hbd & _).
  eexists _, _, _. split; [by eapply create_uploadable_2d|].
  split; [reflexivity|]. split; [reflexivity|].
  unfold mask_bool, _get_bool_arr.
  change (strip_prefix data_uri_prefix (data_uri_prefix +:+ ?x)) with (Some x).
  cbv beta iota.
  rewrite String.list_byte_of_string_of_list_byte, b64decode_b64encode, Hopen.
  rewrite mask_image_eq by done.
  cbn [mbind result_bind xsize ysize pixels]. by rewrite threshold_mask_bytes.
Qed.

(** The 2 x 3 mask [[F, T, T], [T, F, F]], written with the plain
    container. *)
Lemma mask_round_trip_witness :
  exists u ann s,
    create_uploadable raw_save int_of_number cls_AnnotationMask
      (bool_array 2 3 [false; true; true; true; false; false]) (PyInt 7) = Ok u
    /\ dict_get "annotation" u = Some (PyDict ann)
    /\ dict_get "mask" ann = Some (PyStr s)
    /\ mask_bool raw_open s
       = Ok (mk_ndarray [2; 3]%nat (BoolBuf [false; true; true; true; false; false])).
Proof.
  apply (mask_round_trip raw_save raw_open int_of_number cls_AnnotationMask
           2 3 [false; true; true; true; false; false] (PyInt 7)
           [Byte.x01; Byte.x03; Byte.x02;
            Byte.x00; Byte.xff; Byte.xff; Byte.xff; Byte.x00; Byte.x00] 7);
    vm_compute; reflexivity.
Defined.

(** C3.  Empty mask.  For an all-false mask of any shape [(h, w)],
    [get_bool_mask_bounds] returns the four edges [0] instead of raising,
    and the roi [create_uploadable] assembles for such a mask has [xmin =
    xmax = ymin = ymax = 0] and [width = height = 0]. *)
Theorem empty_mask_zero_bounds (h w : nat) (l : list bool) :
  all_false h w l ->
  get_bool_mask_bounds (bool_array h w l)
  = Ok (mk_bounds (NInt 0) (NInt 0) (NInt 0) (NInt 0))
  /\ forall (png_save : image -> result (list byte)) (py_int : pyval -> result Z)
            (cls : class) (class_id : pyval) (data : list byte) (n : Z),
       png_save (mask_image h w l) = Ok data ->
       py_int class_id = Ok n ->
       exists u ann,
         create_uploadable png_save py_int cls (bool_array h w l) class_id = Ok u
         /\ dict_get "annotation" u = Some (PyDict ann)
         /\ dict_get "roi" ann
            = Some (PyDict [("xmin", PyInt 0); ("xmax", PyInt 0);
                            ("ymin", PyInt 0); ("ymax", PyInt 0);
                            ("width", PyInt 0); ("height", PyInt 0)]).
Proof.
  intros Hnone. pose proof (bounds_of_all_false h w l Hnone) as Hbd.
  split; [exact Hbd|].
  intros png_save py_int cls class_id data n Hsave Hn.
  eexists _, _. split; [by eapply create_uploadable_2d|].
  split; reflexivity.
Qed.

(** A 3 x 2 mask without a true value. *)
Lemma empty_mask_zero_bounds_witness :
  get_bool_mask_bounds (bool_array 3 2 (replicate 6 false))
  = Ok (mk_bounds (NInt 0) (NInt 0) (NInt 0) (NInt 0))
  /\ exists u ann,
       create_uploadable raw_save int_of_number cls_AnnotationMask
         (bool_array 3 2 (replicate 6 false)) (PyInt 1) = Ok u
       /\ dict_get "annotation" u = Some (PyDict ann)
       /\ dict_get "roi" ann
          = Some (PyDict [("xmin", PyInt 0); ("xmax", PyInt 0);
                          ("ymin", PyInt 0); ("ymax", PyInt 0);
                          ("width", PyInt 0); ("height", PyInt 0)]).
Proof.
  destruct (empty_mask_zero_bounds 3 2 (replicate 6 false)) as [Hbd Hroi].
  - intros i j Hi Hj. unfold pixel.
    assert (i * 2 + j < 6)%nat as Hlt by lia.
    revert Hlt. generalize (i * 2 + j)%nat as k. intros k Hk.
    do 6 (destruct k as [|k]; [reflexivity|]). lia.
  - split; [exact Hbd|].
    apply (Hroi raw_save int_of_number cls_AnnotationMask (PyInt 1)
             (Byte.x01 :: Byte.x02 :: Byte.x03 :: replicate 6 Byte.x00) 1);
      vm_compute; reflexivity.
Defined.

(** C6.  The record.  For a 2-dimensional boolean mask of shape [(h, w)]
    and a class id that [int] accepts, [AnnotationMask.create_uploadable]
    returns [type = "mask"], [format = "1UC1"], [annotation.width = w],
    [annotation.height = h], [annotation.score = None], [class_id =
    int(class_id)] and an roi of integers with [width = xmax - xmin] and
    [height = ymax - ymin]. *)
Theorem create_uploadable_record
    (png_save : image -> result (list byte)) (py_int : pyval -> result Z)
    (h w : nat) (l : list bool) (class_id : pyval) (data : list byte) (n : Z) :
  ndarray_wf (mk_ndarray [h; w] (BoolBuf l)) = true ->
  png_save (mask_image h w l) = Ok data ->
  py_int class_id = Ok n ->
  exists (s : string) (xmin xmax ymin ymax : Z),
    create_uploadable png_save py_int cls_AnnotationMask (bool_array h w l) class_id
    = Ok [("type", PyStr "mask");
          ("format", PyStr "1UC1");
          ("annotation",
           PyDict [("mask", PyStr s);
                   ("width", PyInt (Z.of_nat w));
                   ("height", PyInt (Z.of_nat h));
                   ("score", PyNone);
                   ("roi",
                    PyDict [("xmin", PyInt xmin); ("xmax", PyInt xmax);
                            ("ymin", PyInt ymin); ("ymax", PyInt ymax);
                            ("width", PyInt (xmax - xmin));
                            ("height", PyInt (ymax - ymin))])]);
          ("class_id", PyInt n)].
Proof.
  intros (_ & Hh & Hw)%wf_2d Hsave Hn.
  destruct (bounds_ordered h w l Hh Hw) as (bd & Hbd & _ & _ & Hwd & Hht).
  eexists _, _, _, _, _.
  rewrite (create_uploadable_2d png_save py_int _ h w l class_id data bd n Hsave Hbd Hn).
  rewrite Hwd, Hht. reflexivity.
Qed.

(** The 4 x 4 mask with a 2 x 2 square of true values at rows 1-2,
    columns 1-2: the roi is [{1, 2, 1, 2, 1, 1}]. *)
Lemma create_uploadable_record_witness :
  exists (s : string) (xmin xmax ymin ymax : Z),
    create_uploadable raw_save int_of_number cls_AnnotationMask
      (bool_array 4 4 [false; false; false; false;
                       false; true;  true;  false;
                       false; true;  true;  false;
                       false; false; false; false]) (PyInt 3)
    = Ok [("type", PyStr "mask");
          ("format", PyStr "1UC1");
          ("annotation",
           PyDict [("mask", PyStr s);
                   ("width", PyInt 4);
                   ("height", PyInt 4);
                   ("score", PyNone);
                   ("roi",
                    PyDict [("xmin", PyInt xmin); ("xmax", PyInt xmax);
                            ("ymin", PyInt ymin); ("ymax", PyInt ymax);
                            ("width", PyInt (xmax - xmin));
                            ("height", PyInt (ymax - ymin))])]);
          ("class_id", PyInt 3)].
Proof.
  apply (create_uploadable_record raw_save int_of_number 4 4
           [false; false; false; false;
            false; true;  true;  false;
            false; true;  true;  false;
            false; false; false; false] (PyInt 3)
           [Byte.x01; Byte.x04; Byte.x04;
            Byte.x00; Byte.x00; Byte.x00; Byte.x00;
            Byte.x00; Byte.xff; Byte.xff; Byte.x00;
            Byte.x00; Byte.xff; Byte.xff; Byte.x00;
            Byte.x00; Byte.x00; Byte.x00; Byte.x00] 3); vm_compute; reflexivity.
Defined.

(** C7.  The roi invariant.  In every roi the encoder produces from a
    boolean mask, the corners [xmin], [xmax], [ymin], [ymax] and the sizes
    [width], [height] are non-negative integers with [xmin <= xmax] and
    [ymin <= ymax]; equality occurs, as in the all-zero roi of an empty
    mask. *)
Theorem roi_ordered_nonnegative
    (png_save : image -> result (list byte)) (py_int : pyval -> result Z) (cls : class)
    (h w : nat) (l : list bool) (class_id : pyval) (data : list byte) (n : Z) :
  ndarray_wf (mk_ndarray [h; w] (BoolBuf l)) = true ->
  png_save (mask_image h w l) = Ok data ->
  py_int class_id = Ok n ->
  exists u ann (xmin xmax ymin ymax width height : Z),
    create_uploadable png_save py_int cls (bool_array h w l) class_id = Ok u
    /\ dict_get "annotation" u = Some (PyDict ann)
    /\ dict_get "roi" ann
       = Some (PyDict [("xmin", PyInt xmin); ("xmax", PyInt xmax);
                       ("ymin", PyInt ymin); ("ymax", PyInt ymax);
                       ("width", PyInt width); ("height", PyInt height)])
    /\ 0 <= xmin <= xmax /\ 0 <= ymin <= ymax /\ 0 <= width /\ 0 <= height.
Proof.
  intros (_ & Hh & Hw)%wf_2d Hsave Hn.
  destruct (bounds_ordered h w l Hh Hw) as (bd & Hbd & Hx & Hy & Hwd & Hht).
  eexists _, _, _, _, _, _, _, _. split; [by eapply create_uploadable_2d|].
  split; [reflexivity|]. split; [reflexivity|]. lia.
Qed.

(** A single true pixel at [(1, 2)] of a 2 x 3 mask: the roi is the
    degenerate box [xmin = xmax = 2], [ymin = ymax = 1]. *)
Lemma roi_ordered_nonnegative_witness :
  exists u ann (xmin xmax ymin ymax width height : Z),
    create_uploadable raw_save int_of_number cls_AnnotationMask
      (bool_array 2 3 [false; false; false; false; false; true]) (PyInt 0) = Ok u
    /\ dict_get "annotation" u = Some (PyDict ann)
    /\ dict_get "roi" ann
       = Some (PyDict [("xmin", PyInt xmin); ("xmax", PyInt xmax);
                       ("ymin", PyInt ymin); ("ymax", PyInt ymax);
                       ("width", PyInt width); ("height", PyInt height)])
    /\ 0 <= xmin <= xmax /\ 0 <= ymin <= ymax /\ 0 <= width /\ 0 <= height.
Proof.
  apply (roi_ordered_nonnegative raw_save int_of_number cls_AnnotationMask 2 3
           [false; false; false; false; false; true] (PyInt 0)
           [Byte.x01; Byte.x03; Byte.x02;
            Byte.x00; Byte.x00; Byte.x00; Byte.x00; Byte.x00; Byte.xff] 0);
    vm_compute; reflexivity.
Defined.

(** ** The claims on the input checks *)

(** C4, as the code has it.  On a boolean array of shape [(h, w)],
    [parse_bool_masks] returns the same elements with shape [(h, w, 1)];
    on a boolean array of any other number of dimensions it returns the
    array unchanged; on a value that is not an array, and on an array that
    is not boolean, its [assert] fails: the error is an [AssertionError]
    whose message gives the type, respectively the dtype, that was
    found. *)
Theorem parse_bool_masks_cases :
  (forall a h w, dtype_of a = dt_bool -> shape a = [h; w] ->
     exists a', parse_bool_masks (PyArr a) = Ok a'
                /\ shape a' = [h; w; 1%nat] /\ buf a' = buf a)
  /\ (forall a, dtype_of a = dt_bool -> length (shape a) <> 2%nat ->
        parse_bool_masks (PyArr a) = Ok a)
  /\ (forall v, type_of v <> T_ndarray ->
        parse_bool_masks v
        = Raise (mk_exn AssertionError "Expected bool_masks to be a numpy array, not {}"
                   [FType (type_of v)]))
  /\ (forall a, dtype_of a <> dt_bool ->
        parse_bool_masks (PyArr a)
        = Raise (mk_exn AssertionError "Expected bool_masks to have dtype == bool, not {}"
                   [FDtype (dtype_of a)])).
Proof.
  repeat split.
  - intros a h w Hd Hs. exists (expand_dims_last a).
    unfold parse_bool_masks. rewrite Hd, Hs. cbn. by rewrite Hs.
  - intros a Hd Hn. unfold parse_bool_masks. rewrite Hd. cbn.
    apply Nat.eqb_neq in Hn. by rewrite Hn.
  - intros v Hv. by destruct v.
  - intros a Hd. unfold parse_bool_masks.
    destruct (dtype_of a); [done|reflexivity..].
Qed.

(** A 2 x 3 mask, a 3-dimensional stack, a list of lists and an integer
    0/1 array. *)
Lemma parse_bool_masks_cases_witness :
  (exists a', parse_bool_masks (bool_array 2 3 [true; false; false; false; true; true]) = Ok a'
              /\ shape a' = [2; 3; 1]%nat
              /\ buf a' = BoolBuf [true; false; false; false; true; true])
  /\ parse_bool_masks (PyArr (mk_ndarray [1; 2; 2]%nat (BoolBuf [true; false; false; true])))
     = Ok (mk_ndarray [1; 2; 2]%nat (BoolBuf [true; false; false; true]))
  /\ parse_bool_masks (PyList [PyList [PyBool true]])
     = Raise (mk_exn AssertionError "Expected bool_masks to be a numpy array, not {}"
                [FType T_list])
  /\ parse_bool_masks (PyArr (mk_ndarray [2; 2]%nat (Int64Buf [0; 1; 1; 0])))
     = Raise (mk_exn AssertionError "Expected bool_masks to have dtype == bool, not {}"
                [FDtype dt_int64]).
Proof.
  destruct parse_bool_masks_cases as (H2 & Hn & Ht & Hd).
  split; [|split; [|split]].
  - apply (H2 (mk_ndarray [2; 3]%nat (BoolBuf [true; false; false; false; true; true])) 2 3)%nat;
      reflexivity.
  - apply (Hn (mk_ndarray [1; 2; 2]%nat (BoolBuf [true; false; false; true])));
      [reflexivity|cbn; lia].
  - apply (Ht (PyList [PyList [PyBool true]])). discriminate.
  - apply (Hd (mk_ndarray [2; 2]%nat (Int64Buf [0; 1; 1; 0]))). discriminate.
Defined.

(** C4 as stated asks for a [TypeError]; the failed [assert] raises an
    [AssertionError], which is not one. *)
Lemma parse_bool_masks_not_TypeError :
  ~ exists e, parse_bool_masks (PyList [PyList [PyBool true]]) = Raise e
              /\ isinstance e TypeError = true.
Proof. intros (e & [= <-] & He). discriminate He. Qed.

(** C5, as the code has it.  [create_uploadable] refuses a value that is
    not an array, an array that is not boolean and a boolean array that is
    not 2-dimensional by a failed [assert]: the error is an
    [AssertionError] whose message states what was expected and the type,
    dtype or shape that was found.  The three checks come first: the
    outcome is the same for every PNG writer, every [int] and every class
    id, and no uploadable is returned. *)
Theorem create_uploadable_rejects :
  (forall v, type_of v <> T_ndarray ->
     forall png_save py_int cls class_id,
       create_uploadable png_save py_int cls v class_id
       = Raise (mk_exn AssertionError "Expected bool_mask to be a numpy array, not a {}"
                  [FType (type_of v)]))
  /\ (forall a, dtype_of a <> dt_bool ->
        forall png_save py_int cls class_id,
          create_uploadable png_save py_int cls (PyArr a) class_id
          = Raise (mk_exn AssertionError "Expected bool_mask.dtype to be bool, not {}"
                     [FDtype (dtype_of a)]))
  /\ (forall a, dtype_of a = dt_bool -> length (shape a) <> 2%nat ->
        forall png_save py_int cls class_id,
          create_uploadable png_save py_int cls (PyArr a) class_id
          = Raise (mk_exn AssertionError
                     "Expected bool_mask to have a shape of 2 (height, width), not {}"
                     [FShape (shape a)])).
Proof.
  repeat split.
  - intros v Hv png_save py_int cls class_id. by destruct v.
  - intros a Hd png_save py_int cls class_id. unfold create_uploadable.
    destruct (dtype_of a); [done|reflexivity..].
  - intros a Hd Hn png_save py_int cls class_id. unfold create_uploadable.
    rewrite Hd. apply Nat.eqb_neq in Hn. cbn. by rewrite Hn.
Qed.

(** [None], an integer 0/1 array, a 1-dimensional and a 4-dimensional
    boolean array. *)
Lemma create_uploadable_rejects_witness :
  create_uploadable raw_save int_of_number cls_AnnotationMask PyNone (PyInt 1)
  = Raise (mk_exn AssertionError "Expected bool_mask to be a numpy array, not a {}"
             [FType T_NoneType])
  /\ create_uploadable raw_save int_of_number cls_AnnotationMask
       (PyArr (mk_ndarray [2; 2]%nat (Int64Buf [0; 1; 1; 0]))) (PyInt 1)
     = Raise (mk_exn AssertionError "Expected bool_mask.dtype to be bool, not {}"
                [FDtype dt_int64])
  /\ create_uploadable raw_save int_of_number cls_AnnotationMask
       (PyArr (mk_ndarray [3%nat] (BoolBuf [true; false; true]))) (PyInt 1)
     = Raise (mk_exn AssertionError
                "Expected bool_mask to have a shape of 2 (height, width), not {}"
                [FShape [3%nat]])
  /\ create_uploadable raw_save int_of_number cls_AnnotationMask
       (PyArr (mk_ndarray [1; 1; 1; 1]%nat (BoolBuf [true]))) PyNone
     = Raise (mk_exn AssertionError
                "Expected bool_mask to have a shape of 2 (height, width), not {}"
                [FShape [1; 1; 1; 1]%nat]).
Proof.
  destruct create_uploadable_rejects as (Ht & Hd & Hs).
  split; [|split; [|split]].
  - apply (Ht PyNone). discriminate.
  - apply (Hd (mk_ndarray [2; 2]%nat (Int64Buf [0; 1; 1; 0]))). discriminate.
  - apply (Hs (mk_ndarray [3%nat] (BoolBuf [true; false; true]))); [reflexivity|cbn; lia].
  - apply (Hs (mk_ndarray [1; 1; 1; 1]%nat (BoolBuf [true]))); [reflexivity|cbn; lia].
Defined.

(** C5 as stated asks for a [TypeError] or a [ValueError]; for an integer
    0/1 array the error is neither. *)
Lemma create_uploadable_not_TypeError_ValueError :
  ~ exists e,
      create_uploadable raw_save int_of_number cls_AnnotationMask
        (PyArr (mk_ndarray [2; 2]%nat (Int64Buf [0; 1; 1; 0]))) (PyInt 1) = Raise e
      /\ (isinstance e TypeError || isinstance e ValueError) = true.
Proof. intros (e & [= <-] & He). discriminate He. Qed.

(** ** The claims on the annotation entity *)

(** C8.  When the record dict of an annotation has no key
    ['image_index'], the accessor [_image_index] fails at once with an
    [AssertionError] whose message names that key; when the key is there,
    the accessor returns the value stored under it. *)
Theorem image_index_accessor (self : annotation) (d : list (string * pyval)) :
  _data self = PyDict d ->
  (dict_get "image_index" d = None ->
     exists e, _Annotation._image_index self = Raise e
               /\ exn_cls e = AssertionError
               /\ mentions "'image_index'" (exn_fmt e) = true
               /\ exn_args e = [FDict d])
  /\ (forall v, dict_get "image_index" d = Some v ->
        _Annotation._image_index self = Ok v).
Proof.
  intros Hd. unfold _Annotation._image_index, _Annotation.data_dict. rewrite Hd.
  cbn [mbind result_bind]. unfold dict_contains, dict_getitem. split.
  - intros ->. eexists. split; [reflexivity|]. repeat split; reflexivity.
  - intros v ->. reflexivity.
Qed.

(** A record without the key, and the same record with it. *)
Lemma image_index_accessor_witness :
  (exists e,
     _Annotation._image_index
       (mk_annotation PyNone PyNone (PyDict [("type", PyStr "mask")])) = Raise e
     /\ exn_cls e = AssertionError
     /\ mentions "'image_index'" (exn_fmt e) = true
     /\ exn_args e = [FDict [("type", PyStr "mask")]])
  /\ _Annotation._image_index
       (mk_annotation PyNone PyNone
          (PyDict [("type", PyStr "mask"); ("image_index", PyInt 12)]))
     = Ok (PyInt 12).
Proof.
  split.
  - apply (image_index_accessor
             (mk_annotation PyNone PyNone (PyDict [("type", PyStr "mask")]))
             [("type", PyStr "mask")]); reflexivity.
  - apply (image_index_accessor
             (mk_annotation PyNone PyNone
                (PyDict [("type", PyStr "mask"); ("image_index", PyInt 12)]))
             [("type", PyStr "mask"); ("image_index", PyInt 12)]); reflexivity.
Defined.

Section RowIndex.
Variable world : Type.
Variable lookup_of : pyval -> pyval -> world -> result (list pyval) * world.
Variable py_eq : pyval -> pyval -> result bool.

(** [list.index] returns the first position whose element equals the
    value, whatever position the count starts from. *)
Lemma list_index_found (lookup : list pyval) (v : pyval) (i p : nat) (x : pyval) :
  lookup !! p = Some x ->
  py_eq x v = Ok true ->
  (forall q y, (q < p)%nat -> lookup !! q = Some y -> py_eq y v = Ok false) ->
  _Annotation.list_index py_eq lookup v i = Ok (Z.of_nat (i + p)).
Proof.
  revert i p. induction lookup as [|y lookup IH]; intros i p Hp Hx Hbefore; [done|].
  cbn [_Annotation.list_index]. destruct p as [|p].
  - injection Hp as ->. rewrite Hx. cbn. by rewrite Nat.add_0_r.
  - rewrite (Hbefore 0%nat y) by (done || lia). cbn [mbind result_bind].
    rewrite (IH (S i) p); [f_equal; lia|done..|].
    intros q z Hq Hz. apply (Hbefore (S q)); [lia|done].
Qed.

(** It raises [ValueError] when no element equals the value. *)
Lemma list_index_absent (lookup : list pyval) (v : pyval) (i : nat) :
  Forall (fun y => py_eq y v = Ok false) lookup ->
  _Annotation.list_index py_eq lookup v i
  = Raise (mk_exn ValueError "{} is not in list" [FValue v]).
Proof.
  intros Hall. revert i. induction Hall as [|y lookup Hy _ IH]; intros i; [done|].
  cbn [_Annotation.list_index]. rewrite Hy. apply IH.
Qed.
End RowIndex.

(** C9.  For an annotation whose record holds ['image_index'], every
    access to [row_index] asks the collection for the lookup sequence of
    the annotation's source, in the state the collection is in at that
    access, and returns the first position of the image index in the
    sequence it gets; nothing is kept from one access to the next.  When
    no element of the sequence equals the image index, the [ValueError] of
    [list.index] comes out of the accessor as it is. *)
Theorem row_index_position
    (world : Type)
    (lookup_of : pyval -> pyval -> world -> result (list pyval) * world)
    (py_eq : pyval -> pyval -> result bool)
    (self : annotation) (d : list (string * pyval)) (v : pyval) :
  _data self = PyDict d ->
  dict_get "image_index" d = Some v ->
  forall (σ σ' : world) (lookup : list pyval),
    lookup_of (_collection self) (_source self) σ = (Ok lookup, σ') ->
    (forall p x,
       lookup !! p = Some x ->
       py_eq x v = Ok true ->
       (forall q y, (q < p)%nat -> lookup !! q = Some y -> py_eq y v = Ok false) ->
       _Annotation.row_index world lookup_of py_eq self σ = (Ok (Z.of_nat p), σ'))
    /\ (Forall (fun y => py_eq y v = Ok false) lookup ->
        _Annotation.row_index world lookup_of py_eq self σ
        = (Raise (mk_exn ValueError "{} is not in list" [FValue v]), σ')).
Proof.
  intros Hd Hv σ σ' lookup Hlk.
  assert (_Annotation._image_index self = Ok v) as Hidx.
  { unfold _Annotation._image_index, _Annotation.data_dict. rewrite Hd.
    cbn [mbind result_bind]. unfold dict_contains, dict_getitem. by rewrite Hv. }
  unfold _Annotation.row_index, _Annotation.collection, _Annotation.source.
  rewrite Hlk. cbn [mbind result_bind]. rewrite Hidx. cbn [mbind result_bind].
  split.
  - intros p x Hp Hx Hbefore. f_equal.
    apply (list_index_found py_eq lookup v 0 p x); done.
  - intros Hall. f_equal. by apply list_index_absent.
Qed.

(** The collection is a table that can be replaced between two accesses:
    image index 7 is at row 2 of [[4; 5; 7]], at row 0 of [[7; 4]] and not
    in [[4; 5]]. *)
Lemma row_index_position_witness :
  let self := mk_annotation PyNone PyNone (PyDict [("image_index", PyInt 7)]) in
  let lookup_of := fun (_ _ : pyval) (σ : list pyval) => (Ok σ, σ) in
  _Annotation.row_index (list pyval) lookup_of eq_of_atoms self [PyInt 4; PyInt 5; PyInt 7]
  = (Ok 2, [PyInt 4; PyInt 5; PyInt 7])
  /\ _Annotation.row_index (list pyval) lookup_of eq_of_atoms self [PyInt 7; PyInt 4]
     = (Ok 0, [PyInt 7; PyInt 4])
  /\ _Annotation.row_index (list pyval) lookup_of eq_of_atoms self [PyInt 4; PyInt 5]
     = (Raise (mk_exn ValueError "{} is not in list" [FValue (PyInt 7)]),
        [PyInt 4; PyInt 5]).
Proof.
  intros self lookup_of.
  pose proof (row_index_position (list pyval) lookup_of eq_of_atoms self
                [("image_index", PyInt 7)] (PyInt 7) eq_refl eq_refl) as H.
  split; [|split].
  - apply (proj1 (H [PyInt 4; PyInt 5; PyInt 7] _ _ eq_refl) 2%nat (PyInt 7));
      [reflexivity..|].
    intros q y Hq Hy.
    destruct q as [|[|q]]; [cbn in Hy; injection Hy as <-; reflexivity..|lia].
  - apply (proj1 (H [PyInt 7; PyInt 4] _ _ eq_refl) 0%nat (PyInt 7)); [reflexivity..|].
    intros q y Hq. lia.
  - apply (proj2 (H [PyInt 4; PyInt 5] _ _ eq_refl)). by repeat constructor.
Defined.

(** Binding fails with a [TypeError] only, and a successful binding
    gives one value per parameter. *)
Lemma assign_keywords_TypeError name params kwargs slots e :
  assign_keywords name params slots kwargs = Raise e -> exn_cls e = TypeError.
Proof.
  revert slots. induction kwargs as [|[k v] kwargs IH]; intros slots; cbn [assign_keywords].
  - done.
  - destruct (param_index k params) as [i|]; [|by intros [= <-]].
    destruct (slots !! i) as [[x|]|]; [by intros [= <-]|apply IH|by intros [= <-]].
Qed.

Lemma assign_keywords_length name params kwargs slots slots' :
  assign_keywords name params slots kwargs = Ok slots' -> length slots' = length slots.
Proof.
  revert slots. induction kwargs as [|[k v] kwargs IH]; intros slots; cbn [assign_keywords].
  - by intros [= <-].
  - destruct (param_index k params) as [i|]; [|done].
    destruct (slots !! i) as [[x|]|]; [done| |done].
    intros H%IH. by rewrite length_insert in H.
Qed.

Lemma fill_slots_TypeError name required slots e :
  fill_slots name required slots = Raise e -> exn_cls e = TypeError.
Proof.
  revert required. induction slots as [|[v|] slots IH]; intros required; cbn [fill_slots].
  - done.
  - destruct (fill_slots name (required - 1) slots) eqn:E; [done|].
    intros [= <-]. by eapply IH.
  - destruct (0 <? required)%nat; [by intros [= <-]|].
    destruct (fill_slots name 0 slots) eqn:E; [done|].
    intros [= <-]. by eapply IH.
Qed.

Lemma fill_slots_length name required slots vs :
  fill_slots name required slots = Ok vs -> length vs = length slots.
Proof.
  revert required vs. induction slots as [|[v|] slots IH]; intros required vs;
    cbn [fill_slots].
  - by intros [= <-].
  - destruct (fill_slots name (required - 1) slots) eqn:E; [|done].
    intros [= <-]. cbn. f_equal. by eapply IH.
  - destruct (0 <? required)%nat; [done|].
    destruct (fill_slots name 0 slots) eqn:E; [|done].
    intros [= <-]. cbn. f_equal. by eapply IH.
Qed.

Lemma bind_args_TypeError name params required args kwargs e :
  bind_args name params required args kwargs = Raise e -> exn_cls e = TypeError.
Proof.
  unfold bind_args.
  destruct (assign_keywords _ _ _ kwargs) as [slots|e'] eqn:E; cbn [mbind result_bind].
  - destruct (length params <? length args)%nat; [by intros [= <-]|].
    apply fill_slots_TypeError.
  - intros [= <-]. by eapply assign_keywords_TypeError.
Qed.

Lemma bind_args_length name params required args kwargs vs :
  bind_args name params required args kwargs = Ok vs -> length vs = length params.
Proof.
  unfold bind_args.
  destruct (assign_keywords _ _ _ kwargs) as [slots|e'] eqn:E; cbn [mbind result_bind];
    [|done].
  destruct (Nat.ltb_spec (length params) (length args)) as [|Hle]; [done|].
  intros ->%fill_slots_length. apply assign_keywords_length in E as ->.
  rewrite length_app, length_map, length_take, length_replicate. lia.
Qed.

(** C10.  The constructor of [AnnotationMask] cannot succeed.  Whatever
    the positional and keyword arguments, [AnnotationMask.__init__] raises
    a [TypeError]; whenever its own parameters bind, the error is that of
    [_Annotation.__init__], which takes [self] and at most three further
    arguments and receives nine: the bound [self] and the eight that the
    call writes out, [self] among them. *)
Theorem AnnotationMask_init_raises (args : list pyval) (kwargs : list (string * pyval)) :
  exists e,
    AnnotationMask.__init__ args kwargs = Raise e
    /\ exn_cls e = TypeError
    /\ (forall params,
          bind_args "__init__"
            ["self"; "collection"; "row_index"; "source"; "from_filepath"; "from_url";
             "imageset_id"; "image_index"] 3 args kwargs = Ok params ->
          e = mk_exn TypeError
                "__init__() takes from {} to {} positional arguments but {} were given"
                [FValue (PyInt 3); FValue (PyInt 4); FValue (PyInt 9)]).
Proof.
  unfold AnnotationMask.__init__.
  destruct (bind_args _ _ _ args kwargs) as [params|e] eqn:E; cbn [mbind result_bind].
  - pose proof (bind_args_length _ _ _ _ _ _ E) as Hlen.
    destruct params as [|a0 [|a1 [|a2 [|a3 [|a4 [|a5 [|a6 [|a7 [|a8 rest]]]]]]]]];
      try discriminate Hlen.
    eexists. split; [reflexivity|]. split; [reflexivity|]. intros params _. reflexivity.
  - exists e. split; [reflexivity|]. split; [by eapply bind_args_TypeError|].
    intros params [=].
Qed.

(** [AnnotationMask(collection, 0, imageset_id=None)]. *)
Lemma AnnotationMask_init_raises_witness :
  AnnotationMask.__init__ [PyNone; PyNone; PyInt 0] [("imageset_id", PyNone)]
  = Raise (mk_exn TypeError
             "__init__() takes from {} to {} positional arguments but {} were given"
             [FValue (PyInt 3); FValue (PyInt 4); FValue (PyInt 9)]).
Proof.
  destruct (AnnotationMask_init_raises [PyNone; PyNone; PyInt 0] [("imageset_id", PyNone)])
    as (e & -> & _ & He).
  f_equal. by eapply He.
Defined.

(** * Further properties of the module *)

(** ** [parse_bool_masks] *)

Lemma prod_shape_snoc_1 (s : list nat) : prod_shape (s ++ [1%nat]) = prod_shape s.
Proof.
  unfold prod_shape. induction s as [|d s IH]; cbn [foldr app]; [done|]. by rewrite IH.
Qed.

(** X1.  [parse_bool_masks] is idempotent: an array it returned is
    returned unchanged when passed again. *)
Theorem parse_bool_masks_idempotent (v : pyval) (a : ndarray) :
  parse_bool_masks v = Ok a -> parse_bool_masks (PyArr a) = Ok a.
Proof.
  destruct v as [| | | | | |a0]; try discriminate. unfold parse_bool_masks.
  destruct (dtype_eqb (dtype_of a0) dt_bool) eqn:Hd; [|discriminate].
  cbn [py_assert mbind result_bind].
  destruct (Nat.eqb (length (shape a0)) 2) eqn:Hn; intros [= <-].
  - change (dtype_of (expand_dims_last a0)) with (dtype_of a0). rewrite Hd.
    cbn [py_assert mbind result_bind]. unfold expand_dims_last at 1. cbn [shape].
    rewrite length_app. apply Nat.eqb_eq in Hn. rewrite Hn. reflexivity.
  - rewrite Hd. cbn [py_assert mbind result_bind]. by rewrite Hn.
Qed.

Lemma parse_bool_masks_idempotent_witness :
  parse_bool_masks (PyArr (mk_ndarray [1; 2; 1]%nat (BoolBuf [true; false])))
  = Ok (mk_ndarray [1; 2; 1]%nat (BoolBuf [true; false])).
Proof.
  apply (parse_bool_masks_idempotent (bool_array 1 2 [true; false])). reflexivity.
Defined.

(** X2.  What [parse_bool_masks] returns is a boolean array over the
    buffer it was given, with as many elements, well-formed if the input
    was, and never 2-dimensional; it is 3-dimensional exactly when the
    input had two or three dimensions, so an input of one or of four
    dimensions comes back with one or four, not as [[h, w, N]]. *)
Theorem parse_bool_masks_result (v : pyval) (a : ndarray) :
  parse_bool_masks v = Ok a ->
  exists a0,
    v = PyArr a0
    /\ dtype_of a = dt_bool
    /\ buf a = buf a0
    /\ prod_shape (shape a) = prod_shape (shape a0)
    /\ (ndarray_wf a0 = true -> ndarray_wf a = true)
    /\ length (shape a) <> 2%nat
    /\ (length (shape a) = 3%nat <->
        length (shape a0) = 2%nat \/ length (shape a0) = 3%nat).
Proof.
  destruct v as [| | | | | |a0]; try discriminate. unfold parse_bool_masks.
  destruct (dtype_eqb (dtype_of a0) dt_bool) eqn:Hd; [|discriminate].
  assert (dtype_of a0 = dt_bool) as Hb by (by destruct (dtype_of a0)).
  cbn [py_assert mbind result_bind].
  destruct (Nat.eqb_spec (length (shape a0)) 2) as [Hn|Hn]; intros [= <-]; exists a0.
  - unfold expand_dims_last. change (dtype_of {| shape := _; buf := buf a0 |}) with (dtype_of a0).
    cbn [shape buf]. rewrite prod_shape_snoc_1, length_app. cbn [length].
    repeat split; try done; try lia.
    unfold ndarray_wf. cbn [shape buf]. rewrite prod_shape_snoc_1, forallb_app.
    cbn [forallb]. rewrite !andb_true_iff. intros [[? ?] ?]. repeat split; done.
  - repeat split; try done. all: lia.
Qed.

Lemma parse_bool_masks_result_witness :
  exists a0,
    PyArr (mk_ndarray [3%nat] (BoolBuf [true; false; true])) = PyArr a0
    /\ dtype_of (mk_ndarray [3%nat] (BoolBuf [true; false; true])) = dt_bool
    /\ buf (mk_ndarray [3%nat] (BoolBuf [true; false; true])) = buf a0
    /\ prod_shape [3%nat] = prod_shape (shape a0)
    /\ (ndarray_wf a0 = true
        -> ndarray_wf (mk_ndarray [3%nat] (BoolBuf [true; false; true])) = true)
    /\ length [3%nat] <> 2%nat
    /\ (length [3%nat] = 3%nat <->
        length (shape a0) = 2%nat \/ length (shape a0) = 3%nat).
Proof.
  apply (parse_bool_masks_result
           (PyArr (mk_ndarray [3%nat] (BoolBuf [true; false; true])))
           (mk_ndarray [3%nat] (BoolBuf [true; false; true]))).
  reflexivity.
Defined.

(** ** [get_bool_mask_bounds] beyond a single mask *)

Lemma plane_buf_plane0_of (h w n : nat) (l : list bool) :
  plane_buf h w (plane0_of h w n l) = plane0_of h w n l.
Proof.
  unfold plane_buf. apply map_ext_in. intros q Hq%in_seq.
  unfold plane0_of. apply (nth_map_seq (fun q => nth (q * n) l false)). lia.
Qed.

(** The plane [[:, :, 0]] of a stack of shape [(h, w, n)]. *)
Lemma stack_plane0 (h w n : nat) (l : list bool) :
  n <> 0%nat ->
  index_plane0 (mk_ndarray [h; w; n] (BoolBuf l))
  = Ok (mk_ndarray [h; w] (BoolBuf (plane_buf h w (plane0_of h w n l)))).
Proof.
  intros Hn. unfold index_plane0. cbn [shape buf prod_shape foldr gather].
  apply Nat.eqb_neq in Hn. rewrite Hn. do 3 f_equal.
  rewrite plane_buf_plane0_of. unfold plane0_of. rewrite map_map, Nat.mul_1_r.
  apply map_ext. intros q.
  by rewrite Nat.div_1_r, Nat.mod_1_r, !Nat.mul_1_r, Nat.add_0_r.
Qed.

(** X3.  Of a stack of [n >= 1] masks, shape [(h, w, n)],
    [get_bool_mask_bounds] looks at the first mask only: the result is
    that of the 2-dimensional mask [stack[:, :, 0]], whatever the other
    planes hold. *)
Theorem get_bool_mask_bounds_first_plane (h w n : nat) (l : list bool) :
  n <> 0%nat ->
  get_bool_mask_bounds (PyArr (mk_ndarray [h; w; n] (BoolBuf l)))
  = get_bool_mask_bounds (bool_array h w (plane0_of h w n l)).
Proof.
  intros Hn. unfold get_bool_mask_bounds at 2. rewrite parse_2d.
  unfold mbind at 1, result_bind at 1. rewrite plane0_2d.
  unfold get_bool_mask_bounds, parse_bool_masks.
  cbn [dtype_of buf dtype_eqb py_assert shape length Nat.eqb].
  unfold mbind at 1, result_bind at 1. unfold mbind at 1, result_bind at 1.
  by rewrite stack_plane0.
Qed.

(** Two 2 x 2 masks interleaved: plane 0 has its only true value at
    [(1, 0)], plane 1 is all true. *)
Lemma get_bool_mask_bounds_first_plane_witness :
  get_bool_mask_bounds
    (PyArr (mk_ndarray [2; 2; 2]%nat
              (BoolBuf [false; true; false; true; true; true; false; true])))
  = Ok (mk_bounds (NInt64 1) (NInt64 1) (NInt64 0) (NInt64 0)).
Proof.
  rewrite (get_bool_mask_bounds_first_plane 2 2 2
             [false; true; false; true; true; true; false; true]) by lia.
  vm_compute. reflexivity.
Defined.

(** X4.  When [get_bool_mask_bounds] returns and when it raises.  It
    returns bounds for every boolean array of two dimensions and for every
    boolean array of three or more whose third extent is not [0].  It
    raises for everything else, and the bare [except] does not hide that:
    an [AssertionError] of [parse_bool_masks] when the value is not a
    boolean array, an [IndexError] of the subscript [[:, :, 0]] when it is
    one of fewer than two dimensions or with an empty third axis. *)
Theorem get_bool_mask_bounds_outcome (v : pyval) :
  (is_bool_array v && has_plane0 (shape_of v) = true ->
     exists bd, get_bool_mask_bounds v = Ok bd)
  /\ (is_bool_array v = false ->
        exists e, parse_bool_masks v = Raise e
                  /\ get_bool_mask_bounds v = Raise e
                  /\ exn_cls e = AssertionError)
  /\ (is_bool_array v = true -> has_plane0 (shape_of v) = false ->
        exists e, get_bool_mask_bounds v = Raise e /\ exn_cls e = IndexError).
Proof.
  destruct v as [| | | | | |[s b]]; try (split; [done|split; [|done]];
    intros _; eexists; repeat split; reflexivity).
  destruct b as [l|l|l]; try (split; [done|split; [|done]];
    intros _; eexists; repeat split; reflexivity).
  split; [|split; [done|]].
  - intros Hs. cbn in Hs.
    destruct s as [|h [|w [|n rest]]]; try discriminate Hs.
    + rewrite (bounds_2d h w l : get_bool_mask_bounds (PyArr _) = _). eauto.
    + destruct n as [|n]; [discriminate Hs|]. eexists. reflexivity.
  - intros _ Hs. cbn in Hs.
    destruct s as [|h [|w [|n rest]]]; try discriminate Hs;
      try (eexists; split; reflexivity).
    destruct n as [|n]; [|discriminate Hs]. eexists; split; reflexivity.
Qed.

(** A 1-dimensional boolean array, an integer array and a stack with a
    full first plane. *)
Lemma get_bool_mask_bounds_outcome_witness :
  (exists e, get_bool_mask_bounds (PyArr (mk_ndarray [3%nat] (BoolBuf [true; true; true])))
             = Raise e /\ exn_cls e = IndexError)
  /\ (exists e, get_bool_mask_bounds (PyArr (mk_ndarray [1; 2]%nat (Int64Buf [0; 1])))
                = Raise e /\ exn_cls e = AssertionError)
  /\ (exists bd, get_bool_mask_bounds
                   (PyArr (mk_ndarray [1; 2; 1]%nat (BoolBuf [true; true]))) = Ok bd).
Proof.
  split; [|split].
  - apply (get_bool_mask_bounds_outcome
             (PyArr (mk_ndarray [3%nat] (BoolBuf [true; true; true])))); reflexivity.
  - destruct (proj1 (proj2 (get_bool_mask_bounds_outcome
                              (PyArr (mk_ndarray [1; 2]%nat (Int64Buf [0; 1])))))
                    eq_refl) as (e & _ & He & Hc).
    by exists e.
  - apply (get_bool_mask_bounds_outcome
             (PyArr (mk_ndarray [1; 2; 1]%nat (BoolBuf [true; true])))). reflexivity.
Defined.

(** ** The box of the bounds *)

(** X5.  The bounds are the tight bounding box of the true values: every
    true value of the mask lies in rows [top .. bottom] and columns
    [left .. right], and each of the four edges passes through a true
    value. *)
Theorem get_bool_mask_bounds_box (h w : nat) (l : list bool) :
  has_true h w l ->
  exists t b le r : nat,
    get_bool_mask_bounds (bool_array h w l)
    = Ok (mk_bounds (NInt64 (Z.of_nat t)) (NInt64 (Z.of_nat b))
                    (NInt64 (Z.of_nat le)) (NInt64 (Z.of_nat r)))
    /\ (forall i j, (i < h)%nat -> (j < w)%nat -> pixel w l i j = true ->
          (t <= i <= b)%nat /\ (le <= j <= r)%nat)
    /\ (exists j, (j < w)%nat /\ pixel w l t j = true)
    /\ (exists j, (j < w)%nat /\ pixel w l b j = true)
    /\ (exists i, (i < h)%nat /\ pixel w l i le = true)
    /\ (exists i, (i < h)%nat /\ pixel w l i r = true).
Proof.
  intros Hany.
  destruct (bounds_of_has_true h w l Hany)
    as (t & b & le & r & E & (Ht & HPt & Hbt) & (Hb & HPb & Hab) & (Hl & HPl & Hbl)
        & (Hr & HPr & Har)).
  exists t, b, le, r. split; [exact E|]. split.
  - intros i j Hi Hj Hp.
    assert (row_any w l i = true) as Hrow by (apply row_any_true; eauto).
    assert (col_any h w l j = true) as Hcol by (apply col_any_true; eauto).
    repeat split.
    + destruct (Nat.le_gt_cases t i) as [|Hlt]; [done|]. by rewrite (Hbt i Hlt) in Hrow.
    + destruct (Nat.le_gt_cases i b) as [|Hlt]; [done|].
      by rewrite (Hab i (conj Hlt Hi)) in Hrow.
    + destruct (Nat.le_gt_cases le j) as [|Hlt]; [done|]. by rewrite (Hbl j Hlt) in Hcol.
    + destruct (Nat.le_gt_cases j r) as [|Hlt]; [done|].
      by rewrite (Har j (conj Hlt Hj)) in Hcol.
  - split; [by apply row_any_true|]. split; [by apply row_any_true|].
    split; by apply (col_any_true h w l).
Qed.

(** An L-shaped region of a 3 x 3 mask. *)
Lemma get_bool_mask_bounds_box_witness :
  exists t b le r : nat,
    get_bool_mask_bounds
      (bool_array 3 3 [false; false; false;
                       false; true;  false;
                       false; true;  true])
    = Ok (mk_bounds (NInt64 (Z.of_nat t)) (NInt64 (Z.of_nat b))
                    (NInt64 (Z.of_nat le)) (NInt64 (Z.of_nat r)))
    /\ (exists j, (j < 3)%nat
                  /\ pixel 3 [false; false; false;
                              false; true;  false;
                              false; true;  true] t j = true).
Proof.
  destruct (get_bool_mask_bounds_box 3 3
              [false; false; false; false; true; false; false; true; true])
    as (t & b & le & r & E & _ & Ht & _).
  - exists 1%nat, 1%nat. split; [lia|split; [lia|reflexivity]].
  - exists t, b, le, r. by split.
Defined.

(** X6.  Growing a mask can only grow its box: if every true value of a
    first mask is also true in a second one of the same shape, the second
    mask's [top] and [left] are not greater and its [bottom] and [right]
    not smaller than the first's. *)
Theorem get_bool_mask_bounds_monotone (h w : nat) (l1 l2 : list bool) :
  has_true h w l1 ->
  mask_le h w l1 l2 ->
  exists t1 b1 le1 r1 t2 b2 le2 r2 : nat,
    get_bool_mask_bounds (bool_array h w l1)
    = Ok (mk_bounds (NInt64 (Z.of_nat t1)) (NInt64 (Z.of_nat b1))
                    (NInt64 (Z.of_nat le1)) (NInt64 (Z.of_nat r1)))
    /\ get_bool_mask_bounds (bool_array h w l2)
       = Ok (mk_bounds (NInt64 (Z.of_nat t2)) (NInt64 (Z.of_nat b2))
                       (NInt64 (Z.of_nat le2)) (NInt64 (Z.of_nat r2)))
    /\ (t2 <= t1)%nat /\ (b1 <= b2)%nat /\ (le2 <= le1)%nat /\ (r1 <= r2)%nat.
Proof.
  intros Hany Hle.
  assert (has_true h w l2) as Hany2.
  { destruct Hany as (i & j & Hi & Hj & Hp). exists i, j. auto. }
  assert (forall i, (i < h)%nat -> row_any w l1 i = true -> row_any w l2 i = true) as Hrow.
  { intros i Hi (j & Hj & Hp)%row_any_true. apply row_any_true. exists j. auto. }
  assert (forall j, (j < w)%nat -> col_any h w l1 j = true -> col_any h w l2 j = true) as Hcol.
  { intros j Hj (i & Hi & Hp)%col_any_true. apply col_any_true. exists i. auto. }
  destruct (bounds_of_has_true h w l1 Hany)
    as (t1 & b1 & le1 & r1 & E1 & (Ht1 & HPt1 & _) & (Hb1 & HPb1 & _) & (Hl1 & HPl1 & _)
        & (Hr1 & HPr1 & _)).
  destruct (bounds_of_has_true h w l2 Hany2)
    as (t2 & b2 & le2 & r2 & E2 & (_ & _ & Hbt) & (_ & _ & Hab) & (_ & _ & Hbl)
        & (_ & _ & Har)).
  exists t1, b1, le1, r1, t2, b2, le2, r2. split; [exact E1|]. split; [exact E2|].
  apply Hrow in HPt1, HPb1; [|done..]. apply Hcol in HPl1, HPr1; [|done..].
  repeat split.
  - destruct (Nat.le_gt_cases t2 t1) as [|Hlt]; [done|]. by rewrite (Hbt t1 Hlt) in HPt1.
  - destruct (Nat.le_gt_cases b1 b2) as [|Hlt]; [done|].
    by rewrite (Hab b1 (conj Hlt Hb1)) in HPb1.
  - destruct (Nat.le_gt_cases le2 le1) as [|Hlt]; [done|]. by rewrite (Hbl le1 Hlt) in HPl1.
  - destruct (Nat.le_gt_cases r1 r2) as [|Hlt]; [done|].
    by rewrite (Har r1 (conj Hlt Hr1)) in HPr1.
Qed.

(** One pixel, and the same mask with a second pixel added. *)
Lemma get_bool_mask_bounds_monotone_witness :
  exists t1 b1 le1 r1 t2 b2 le2 r2 : nat,
    get_bool_mask_bounds (bool_array 2 2 [false; false; false; true])
    = Ok (mk_bounds (NInt64 (Z.of_nat t1)) (NInt64 (Z.of_nat b1))
                    (NInt64 (Z.of_nat le1)) (NInt64 (Z.of_nat r1)))
    /\ get_bool_mask_bounds (bool_array 2 2 [true; false; false; true])
       = Ok (mk_bounds (NInt64 (Z.of_nat t2)) (NInt64 (Z.of_nat b2))
                       (NInt64 (Z.of_nat le2)) (NInt64 (Z.of_nat r2)))
    /\ (t2 <= t1)%nat /\ (b1 <= b2)%nat /\ (le2 <= le1)%nat /\ (r1 <= r2)%nat.
Proof.
  apply (get_bool_mask_bounds_monotone 2 2 [false; false; false; true]
           [true; false; false; true]).
  - exists 1%nat, 1%nat. split; [lia|split; [lia|reflexivity]].
  - intros i j Hi Hj.
    destruct i as [|[|i]]; [| |lia]; (destruct j as [|[|j]]; [| |lia]); by cbn.
Defined.

(** ** The uploadable: roi, errors and the mask string *)

Lemma bounds_of_only_true_at (h w : nat) (l : list bool) (r c : nat) :
  only_true_at h w l r c ->
  get_bool_mask_bounds (bool_array h w l)
  = Ok (mk_bounds (NInt64 (Z.of_nat r)) (NInt64 (Z.of_nat r))
                  (NInt64 (Z.of_nat c)) (NInt64 (Z.of_nat c))).
Proof.
  intros (Hr & Hc & Honly).
  assert (has_true h w l) as Hany by (exists r, c; repeat split; [done..|by apply Honly]).
  destruct (bounds_of_has_true h w l Hany)
    as (t & b & le & ri & E & (? & Ht & _) & (? & Hb & _) & (? & Hl & _) & (? & Hri & _)).
  apply row_any_true in Ht as (j1 & ? & [-> _]%Honly); [|done..].
  apply row_any_true in Hb as (j2 & ? & [-> _]%Honly); [|done..].
  apply col_any_true in Hl as (i1 & ? & [_ ->]%Honly); [|done..].
  apply col_any_true in Hri as (i2 & ? & [_ ->]%Honly); [|done..].
  exact E.
Qed.

Lemma bounds_exist (h w : nat) (l : list bool) :
  exists bd, get_bool_mask_bounds (bool_array h w l) = Ok bd.
Proof.
  destruct (has_true_or_all_false h w l) as [Hany|Hnone].
  - destruct (bounds_of_has_true h w l Hany) as (t & b & le & r & E & _). eauto.
  - rewrite (bounds_of_all_false h w l Hnone). eauto.
Qed.

Section UploadableErrors.
Variable png_save : image -> result (list byte).
Variable py_int : pyval -> result Z.

Lemma create_uploadable_save_error (cls : class) (h w : nat) (l : list bool)
      (class_id : pyval) (e : exn) :
  png_save (mask_image h w l) = Raise e ->
  create_uploadable png_save py_int cls (bool_array h w l) class_id = Raise e.
Proof.
  intros Hsave. unfold create_uploadable, bool_array.
  cbn [dtype_of buf shape dtype_eqb length Nat.eqb py_assert mbind result_bind].
  unfold mask_data_uri. fold (mask_image h w l). rewrite Hsave. reflexivity.
Qed.

Lemma create_uploadable_int_error (cls : class) (h w : nat) (l : list bool)
      (class_id : pyval) (data : list byte) (e : exn) :
  png_save (mask_image h w l) = Ok data ->
  py_int class_id = Raise e ->
  create_uploadable png_save py_int cls (bool_array h w l) class_id = Raise e.
Proof.
  intros Hsave Hn. destruct (bounds_exist h w l) as (bd & Hbd).
  unfold create_uploadable, bool_array.
  cbn [dtype_of buf shape dtype_eqb length Nat.eqb py_assert mbind result_bind].
  rewrite (mask_data_uri_eq _ _ _ _ _ Hsave). fold (bool_array h w l). rewrite Hbd, Hn.
  reflexivity.
Qed.

(** A returned uploadable means the writer wrote and [int] accepted. *)
Lemma create_uploadable_inv (cls : class) (h w : nat) (l : list bool)
      (class_id : pyval) (u : list (string * pyval)) :
  create_uploadable png_save py_int cls (bool_array h w l) class_id = Ok u ->
  exists data bd n,
    png_save (mask_image h w l) = Ok data
    /\ get_bool_mask_bounds (bool_array h w l) = Ok bd
    /\ py_int class_id = Ok n.
Proof.
  intros Hu. destruct (bounds_exist h w l) as (bd & Hbd).
  destruct (png_save (mask_image h w l)) as [data|e] eqn:Hsave.
  - destruct (py_int class_id) as [n|e] eqn:Hn; [by eauto 6|].
    by rewrite (create_uploadable_int_error cls h w l class_id data e Hsave Hn) in Hu.
  - by rewrite (create_uploadable_save_error cls h w l class_id e Hsave) in Hu.
Qed.
End UploadableErrors.

(** X7.  A mask with a single true value at [(r, c)] gets the roi
    [xmin = xmax = c], [ymin = ymax = r], [width = height = 0]; for the
    top-left pixel this is the all-zero roi of an empty mask, so the roi
    alone does not tell the two apart. *)
Theorem single_pixel_roi
    (png_save : image -> result (list byte)) (py_int : pyval -> result Z) (cls : class)
    (h w : nat) (l : list bool) (r c : nat) (class_id : pyval) (data : list byte) (n : Z) :
  only_true_at h w l r c ->
  png_save (mask_image h w l) = Ok data ->
  py_int class_id = Ok n ->
  exists u ann,
    create_uploadable png_save py_int cls (bool_array h w l) class_id = Ok u
    /\ dict_get "annotation" u = Some (PyDict ann)
    /\ dict_get "roi" ann
       = Some (PyDict [("xmin", PyInt (Z.of_nat c)); ("xmax", PyInt (Z.of_nat c));
                       ("ymin", PyInt (Z.of_nat r)); ("ymax", PyInt (Z.of_nat r));
                       ("width", PyInt 0); ("height", PyInt 0)]).
Proof.
  intros Honly Hsave Hn. pose proof (bounds_of_only_true_at h w l r c Honly) as Hbd.
  eexists _, _. split; [by eapply create_uploadable_2d|].
  split; [reflexivity|]. cbn [dict_get String.eqb Ascii.eqb Bool.eqb left right top bottom
                              num_sub num_val].
  by rewrite !Z.sub_diag.
Qed.

(** The top-left pixel of a 2 x 2 mask. *)
Lemma single_pixel_roi_witness :
  exists u ann,
    create_uploadable raw_save int_of_number cls_AnnotationMask
      (bool_array 2 2 [true; false; false; false]) (PyInt 5) = Ok u
    /\ dict_get "annotation" u = Some (PyDict ann)
    /\ dict_get "roi" ann
       = Some (PyDict [("xmin", PyInt 0); ("xmax", PyInt 0);
                       ("ymin", PyInt 0); ("ymax", PyInt 0);
                       ("width", PyInt 0); ("height", PyInt 0)]).
Proof.
  apply (single_pixel_roi raw_save int_of_number cls_AnnotationMask 2 2
           [true; false; false; false] 0 0 (PyInt 5)
           [Byte.x01; Byte.x02; Byte.x02; Byte.xff; Byte.x00; Byte.x00; Byte.x00] 5);
    [|vm_compute; reflexivity..].
  split; [lia|split; [lia|]]. intros i j Hi Hj.
  destruct i as [|[|i]]; [| |lia]; (destruct j as [|[|j]]; [| |lia]); cbn;
    (split; [intros; (done || discriminate)|intros [? ?]; (done || discriminate)]).
Defined.

(** X8.  The roi of a mask with a true value lies inside the image:
    [xmax < width] and [ymax < height] of the annotation, and, the edges
    being inclusive, the roi's own [width] and [height] are smaller than
    the image's by at least one. *)
Theorem roi_inside_image
    (png_save : image -> result (list byte)) (py_int : pyval -> result Z) (cls : class)
    (h w : nat) (l : list bool) (class_id : pyval) (data : list byte) (n : Z) :
  ndarray_wf (mk_ndarray [h; w] (BoolBuf l)) = true ->
  has_true h w l ->
  png_save (mask_image h w l) = Ok data ->
  py_int class_id = Ok n ->
  exists u ann (xmin xmax ymin ymax width height : Z),
    create_uploadable png_save py_int cls (bool_array h w l) class_id = Ok u
    /\ dict_get "annotation" u = Some (PyDict ann)
    /\ dict_get "width" ann = Some (PyInt (Z.of_nat w))
    /\ dict_get "height" ann = Some (PyInt (Z.of_nat h))
    /\ dict_get "roi" ann
       = Some (PyDict [("xmin", PyInt xmin); ("xmax", PyInt xmax);
                       ("ymin", PyInt ymin); ("ymax", PyInt ymax);
                       ("width", PyInt width); ("height", PyInt height)])
    /\ xmax < Z.of_nat w /\ ymax < Z.of_nat h
    /\ width < Z.of_nat w /\ height < Z.of_nat h.
Proof.
  intros (_ & Hh & Hw)%wf_2d Hany Hsave Hn.
  destruct (bounds_of_has_true h w l Hany) as (t & b & le & r & E & Ht & Hb & Hl & Hr).
  pose proof (first_le_last _ _ _ _ Ht Hb). pose proof (first_le_last _ _ _ _ Hl Hr).
  eexists _, _, _, _, _, _, _, _. split; [by eapply create_uploadable_2d|].
  do 4 (split; [reflexivity|]).
  cbn [left right top bottom num_val num_sub]. rewrite !wrap64_small by lia. lia.
Qed.

(** A full 2 x 3 mask: the roi is 2 wide and 1 high. *)
Lemma roi_inside_image_witness :
  exists u ann (xmin xmax ymin ymax width height : Z),
    create_uploadable raw_save int_of_number cls_AnnotationMask
      (bool_array 2 3 (replicate 6 true)) (PyInt 0) = Ok u
    /\ dict_get "annotation" u = Some (PyDict ann)
    /\ dict_get "width" ann = Some (PyInt 3)
    /\ dict_get "height" ann = Some (PyInt 2)
    /\ dict_get "roi" ann
       = Some (PyDict [("xmin", PyInt xmin); ("xmax", PyInt xmax);
                       ("ymin", PyInt ymin); ("ymax", PyInt ymax);
                       ("width", PyInt width); ("height", PyInt height)])
    /\ xmax < 3 /\ ymax < 2 /\ width < 3 /\ height < 2.
Proof.
  apply (roi_inside_image raw_save int_of_number cls_AnnotationMask 2 3
           (replicate 6 true) (PyInt 0)
           (Byte.x01 :: Byte.x03 :: Byte.x02 :: replicate 6 Byte.xff) 0);
    [reflexivity| |vm_compute; reflexivity..].
  exists 0%nat, 0%nat. split; [lia|split; [lia|reflexivity]].
Defined.

(** X9.  The failures that come after the input checks.  For a
    2-dimensional boolean mask, an error of the PNG writer is the error
    of [create_uploadable] whatever the class id; when the image was
    written, an error of [int(class_id)] is the error of
    [create_uploadable]: the class id is converted last, and no uploadable
    is returned in either case. *)
Theorem create_uploadable_late_errors
    (png_save : image -> result (list byte)) (py_int : pyval -> result Z) (cls : class)
    (h w : nat) (l : list bool) (class_id : pyval) (e : exn) :
  (png_save (mask_image h w l) = Raise e ->
     create_uploadable png_save py_int cls (bool_array h w l) class_id = Raise e)
  /\ (forall data, png_save (mask_image h w l) = Ok data ->
        py_int class_id = Raise e ->
        create_uploadable png_save py_int cls (bool_array h w l) class_id = Raise e).
Proof.
  split.
  - apply create_uploadable_save_error.
  - intros data. apply create_uploadable_int_error.
Qed.

(** [None] as class id for a 1 x 1 mask. *)
Lemma create_uploadable_late_errors_witness :
  create_uploadable raw_save int_of_number cls_AnnotationMask (bool_array 1 1 [true]) PyNone
  = Raise (mk_exn TypeError "int() argument must be a number, not '{}'" [FType T_NoneType]).
Proof.
  apply (proj2 (create_uploadable_late_errors raw_save int_of_number cls_AnnotationMask
                  1 1 [true] PyNone _) [Byte.x01; Byte.x01; Byte.x01; Byte.xff]);
    vm_compute; reflexivity.
Defined.






(** X11.  The conversion to a 1-bit image does not touch a mask.  The
    default of [convert('1')] dithers, but on the bytes
    [mask.astype('uint8') * 255] it has no error to diffuse: the image
    handed to the PNG writer is of mode "1" and size [(w, h)], and its
    pixel at row [i], column [j] is [255] where the mask is true and [0]
    where it is false. *)
Theorem mask_image_pixels (h w : nat) (l : list bool) :
  length l = (h * w)%nat ->
  let im := Image_convert_1 (Image_fromarray h w (uint8_mul (astype_uint8 (BoolBuf l)) 255)) in
  im_mode im = Mode_1 /\ xsize im = w /\ ysize im = h
  /\ length (pixels im) = (h * w)%nat
  /\ forall i j, (i < h)%nat -> (j < w)%nat ->
       nth (i * w + j) (pixels im) 0 = if pixel w l i j then 255 else 0.
Proof.
  intros Hlen im. subst im. fold (mask_image h w l). rewrite mask_image_eq by done.
  cbn [im_mode xsize ysize pixels]. unfold mask_bytes. rewrite length_map.
  repeat split; [done|]. intros i j Hi Hj. unfold pixel.
  exact (map_nth (fun x : bool => if x then 255 else 0) l false (i * w + j)).
Qed.

Lemma mask_image_pixels_witness :
  let im := Image_convert_1
              (Image_fromarray 2 2
                 (uint8_mul (astype_uint8 (BoolBuf [true; false; false; true])) 255)) in
  im_mode im = Mode_1 /\ xsize im = 2%nat /\ ysize im = 2%nat
  /\ length (pixels im) = 4%nat
  /\ forall i j, (i < 2)%nat -> (j < 2)%nat ->
       nth (i * 2 + j) (pixels im) 0
       = if pixel 2 [true; false; false; true] i j then 255 else 0.
Proof.
  apply (mask_image_pixels 2 2 [true; false; false; true]). reflexivity.
Defined.

(** The mask behind a data URI, read back. *)
Lemma mask_bool_of_uri (png_open : list byte -> result image)
      (h w : nat) (l : list bool) (data : list byte) :
  length l = (h * w)%nat ->
  png_open data = Ok (mask_image h w l) ->
  mask_bool png_open (data_uri_prefix +:+ String.string_of_list_byte (b64encode data))
  = Ok (mk_ndarray [h; w] (BoolBuf l)).
Proof.
  intros Hlen Hopen. unfold mask_bool, _get_bool_arr.
  change (strip_prefix data_uri_prefix (data_uri_prefix +:+ ?x)) with (Some x).
  cbv beta iota.
  rewrite String.list_byte_of_string_of_list_byte, b64decode_b64encode, Hopen.
  rewrite mask_image_eq by done.
  cbn [mbind result_bind xsize ysize pixels]. by rewrite threshold_mask_bytes.
Qed.

(** X12.  Two masks never share a mask string.  If the uploadables of
    two well-formed 2-dimensional boolean masks, of any shapes and class
    ids, carry the same [annotation.mask], and the PNG reader restores
    each image from its file, the two masks have the same shape and the
    same elements. *)
Theorem mask_string_injective
    (png_save : image -> result (list byte)) (png_open : list byte -> result image)
    (py_int : pyval -> result Z) (cls : class)
    (h1 w1 : nat) (l1 : list bool) (c1 : pyval)
    (h2 w2 : nat) (l2 : list bool) (c2 : pyval)
    (u1 ann1 u2 ann2 : list (string * pyval)) (s : string) :
  ndarray_wf (mk_ndarray [h1; w1] (BoolBuf l1)) = true ->
  ndarray_wf (mk_ndarray [h2; w2] (BoolBuf l2)) = true ->
  (forall data, png_save (mask_image h1 w1 l1) = Ok data ->
                png_open data = Ok (mask_image h1 w1 l1)) ->
  (forall data, png_save (mask_image h2 w2 l2) = Ok data ->
                png_open data = Ok (mask_image h2 w2 l2)) ->
  create_uploadable png_save py_int cls (bool_array h1 w1 l1) c1 = Ok u1 ->
  dict_get "annotation" u1 = Some (PyDict ann1) ->
  dict_get "mask" ann1 = Some (PyStr s) ->
  create_uploadable png_save py_int cls (bool_array h2 w2 l2) c2 = Ok u2 ->
  dict_get "annotation" u2 = Some (PyDict ann2) ->
  dict_get "mask" ann2 = Some (PyStr s) ->
  h1 = h2 /\ w1 = w2 /\ l1 = l2.
Proof.
  intros (Hlen1 & _)%wf_2d (Hlen2 & _)%wf_2d Hopen1 Hopen2 Hu1 Hann1 Hs1 Hu2 Hann2 Hs2.
  destruct (create_uploadable_inv _ _ _ _ _ _ _ _ Hu1) as (d1 & bd1 & n1 & Hsave1 & Hbd1 & Hn1).
  destruct (create_uploadable_inv _ _ _ _ _ _ _ _ Hu2) as (d2 & bd2 & n2 & Hsave2 & Hbd2 & Hn2).
  rewrite (create_uploadable_2d _ _ _ _ _ _ _ _ _ _ Hsave1 Hbd1 Hn1) in Hu1.
  rewrite (create_uploadable_2d _ _ _ _ _ _ _ _ _ _ Hsave2 Hbd2 Hn2) in Hu2.
  injection Hu1 as <-. injection Hann1 as <-.
  injection Hu2 as <-. injection Hann2 as <-.
  change (Some (PyStr (data_uri_prefix +:+ String.string_of_list_byte (b64encode d1)))
          = Some (PyStr s)) in Hs1.
  change (Some (PyStr (data_uri_prefix +:+ String.string_of_list_byte (b64encode d2)))
          = Some (PyStr s)) in Hs2.
  pose proof (mask_bool_of_uri png_open h1 w1 l1 d1 Hlen1 (Hopen1 _ Hsave1)) as Hm1.
  pose proof (mask_bool_of_uri png_open h2 w2 l2 d2 Hlen2 (Hopen2 _ Hsave2)) as Hm2.
  assert (data_uri_prefix +:+ String.string_of_list_byte (b64encode d2)
          = data_uri_prefix +:+ String.string_of_list_byte (b64encode d1)) as Hs
    by congruence.
  rewrite Hs, Hm1 in Hm2. by injection Hm2 as -> -> ->.
Qed.

(** Twice the same 1 x 2 mask, under two class ids. *)
Lemma mask_string_injective_witness :
  (1 = 1 /\ 2 = 2)%nat /\ [true; false] = [true; false].
Proof.
  assert (forall data, raw_save (mask_image 1 2 [true; false]) = Ok data ->
                       raw_open data = Ok (mask_image 1 2 [true; false])) as Hopen
    by (intros data [= <-]; vm_compute; reflexivity).
  destruct (mask_string_injective raw_save raw_open int_of_number cls_AnnotationMask
              1 2 [true; false] (PyInt 1) 1 2 [true; false] (PyInt 2)
              _ _ _ _ "data:image/png;base64,AQIB/wA="
              eq_refl eq_refl Hopen Hopen eq_refl eq_refl eq_refl eq_refl eq_refl eq_refl)
    as (? & ? & ?).
  by repeat split.
Defined.

(** ** [mask_bool] and [mask_uint8] *)



(** X14.  Encode, then view.  [mask_uint8] of the mask string of an
    uploadable is the array [mask.astype('uint8') * 255] of the mask that
    was encoded, when the PNG reader restores the image from the file. *)
Theorem mask_uint8_of_uploadable
    (png_save : image -> result (list byte)) (png_open : list byte -> result image)
    (py_int : pyval -> result Z) (cls : class)
    (h w : nat) (l : list bool) (class_id : pyval)
    (u ann : list (string * pyval)) (s : string) :
  ndarray_wf (mk_ndarray [h; w] (BoolBuf l)) = true ->
  (forall data, png_save (mask_image h w l) = Ok data ->
                png_open data = Ok (mask_image h w l)) ->
  create_uploadable png_save py_int cls (bool_array h w l) class_id = Ok u ->
  dict_get "annotation" u = Some (PyDict ann) ->
  dict_get "mask" ann = Some (PyStr s) ->
  mask_uint8 png_open s
  = Ok (mk_ndarray [h; w] (UInt8Buf (uint8_mul (astype_uint8 (BoolBuf l)) 255))).
Proof.
  intros (Hlen & _)%wf_2d Hopen Hu Hann Hs.
  destruct (create_uploadable_inv _ _ _ _ _ _ _ _ Hu) as (d & bd & n & Hsave & Hbd & Hn).
  rewrite (create_uploadable_2d _ _ _ _ _ _ _ _ _ _ Hsave Hbd Hn) in Hu.
  injection Hu as <-. injection Hann as <-. injection Hs as <-.
  unfold mask_uint8. by rewrite (mask_bool_of_uri png_open h w l d Hlen (Hopen _ Hsave)).
Qed.

Lemma mask_uint8_of_uploadable_witness :
  mask_uint8 raw_open "data:image/png;base64,AQIB/wA="
  = Ok (mk_ndarray [1; 2]%nat (UInt8Buf [255; 0])).
Proof.
  eapply (mask_uint8_of_uploadable raw_save raw_open int_of_number cls_AnnotationMask
            1 2 [true; false] (PyInt 0));
    [reflexivity|intros data [= <-]|..]; vm_compute; reflexivity.
Defined.

(** ** The annotation entity *)

Section RowIndexMore.
Variable py_eq : pyval -> pyval -> result bool.

(** A position [list.index] returns holds an element equal to the value,
    and no earlier position does. *)
Lemma list_index_sound (lookup : list pyval) (v : pyval) (i : nat) (r : Z) :
  _Annotation.list_index py_eq lookup v i = Ok r ->
  exists p x,
    r = Z.of_nat (i + p) /\ lookup !! p = Some x /\ py_eq x v = Ok true
    /\ forall q y, (q < p)%nat -> lookup !! q = Some y -> py_eq y v = Ok false.
Proof.
  revert i. induction lookup as [|y lookup IH]; intros i; cbn [_Annotation.list_index];
    [discriminate|].
  destruct (py_eq y v) as [[|]|e] eqn:Hy; cbn [mbind result_bind]; [| |discriminate].
  - intros [= <-]. exists 0%nat, y. repeat split; [f_equal; lia|done|].
    intros q z Hq. lia.
  - intros (p & x & -> & Hp & Hx & Hbefore)%IH. exists (S p), x.
    repeat split; [f_equal; lia|done..|].
    intros [|q] z Hq Hz; [by injection Hz as <-|]. apply (Hbefore q); [lia|done].
Qed.
End RowIndexMore.

(** X15.  A row index that [row_index] returns is a valid position of the
    lookup sequence the collection gave at that access: it is at least [0]
    and below the length of the sequence, the element there equals the
    annotation's image index, and no element before it does (with
    duplicates in the sequence, the first counts). *)
Theorem row_index_sound
    (world : Type)
    (lookup_of : pyval -> pyval -> world -> result (list pyval) * world)
    (py_eq : pyval -> pyval -> result bool)
    (self : annotation) (σ σ1 : world) (r : Z) :
  _Annotation.row_index world lookup_of py_eq self σ = (Ok r, σ1) ->
  exists lookup v p x,
    lookup_of (_collection self) (_source self) σ = (Ok lookup, σ1)
    /\ _Annotation._image_index self = Ok v
    /\ r = Z.of_nat p /\ 0 <= r < Z.of_nat (length lookup)
    /\ lookup !! p = Some x /\ py_eq x v = Ok true
    /\ forall q y, (q < p)%nat -> lookup !! q = Some y -> py_eq y v = Ok false.
Proof.
  unfold _Annotation.row_index, _Annotation.collection, _Annotation.source.
  destruct (lookup_of (_collection self) (_source self) σ) as [[lookup|e] σ'];
    cbn [mbind result_bind]; [|discriminate].
  destruct (_Annotation._image_index self) as [v|e]; cbn [mbind result_bind];
    [|discriminate].
  intros [= Hr <-]. apply list_index_sound in Hr as (p & x & -> & Hp & Hx & Hbefore).
  exists lookup, v, p, x. pose proof (lookup_lt_Some _ _ _ Hp).
  repeat split; [lia..|done|done|done].
Qed.

(** Image index 5 in the table [[5; 9; 5]]. *)
Lemma row_index_sound_witness :
  exists lookup v p x,
    (Ok [PyInt 5; PyInt 9; PyInt 5], [PyInt 5; PyInt 9; PyInt 5]) = (Ok lookup, [PyInt 5; PyInt 9; PyInt 5])
    /\ _Annotation._image_index
         (mk_annotation PyNone PyNone (PyDict [("image_index", PyInt 5)])) = Ok v
    /\ 0 = Z.of_nat p /\ 0 <= 0 < Z.of_nat (length lookup)
    /\ lookup !! p = Some x /\ eq_of_atoms x v = Ok true
    /\ forall q y, (q < p)%nat -> lookup !! q = Some y -> eq_of_atoms y v = Ok false.
Proof.
  apply (row_index_sound (list pyval) (fun _ _ σ => (Ok σ, σ)) eq_of_atoms
           (mk_annotation PyNone PyNone (PyDict [("image_index", PyInt 5)]))
           [PyInt 5; PyInt 9; PyInt 5] [PyInt 5; PyInt 9; PyInt 5] 0).
  reflexivity.
Defined.

(** X16.  What [row_index] does when it cannot answer.  The collection
    is asked first and exactly once: the state it is left in is the state
    after that one call, whatever happens next.  An error of the
    collection's lookup is the error of the accessor, even for a record
    without ['image_index']; with a lookup sequence in hand, an error of
    [_image_index] (the failed [assert] on a missing key, or the
    [AttributeError] of [.keys()] when [_data] is not a dict) is the error
    of the accessor. *)
Theorem row_index_failures
    (world : Type)
    (lookup_of : pyval -> pyval -> world -> result (list pyval) * world)
    (py_eq : pyval -> pyval -> result bool)
    (self : annotation) (σ : world) :
  (_Annotation.row_index world lookup_of py_eq self σ).2
  = (lookup_of (_collection self) (_source self) σ).2
  /\ (forall e, (lookup_of (_collection self) (_source self) σ).1 = Raise e ->
        (_Annotation.row_index world lookup_of py_eq self σ).1 = Raise e)
  /\ (forall lookup e,
        (lookup_of (_collection self) (_source self) σ).1 = Ok lookup ->
        _Annotation._image_index self = Raise e ->
        (_Annotation.row_index world lookup_of py_eq self σ).1 = Raise e)
  /\ (forall d, _data self = PyDict d -> dict_get "image_index" d = None ->
        exists e, _Annotation._image_index self = Raise e /\ exn_cls e = AssertionError)
  /\ (type_of (_data self) <> T_dict ->
        exists e, _Annotation._image_index self = Raise e /\ exn_cls e = AttributeError).
Proof.
  unfold _Annotation.row_index, _Annotation.collection, _Annotation.source.
  destruct (lookup_of (_collection self) (_source self) σ) as [[lookup|e0] σ'];
    cbn [fst snd mbind result_bind].
  - split; [done|]. split; [done|]. split.
    { intros lookup' e _ ->. reflexivity. }
    split.
    + intros d Hd Hnone. unfold _Annotation._image_index, _Annotation.data_dict.
      rewrite Hd. cbn [mbind result_bind]. unfold dict_contains. rewrite Hnone.
      eexists. split; reflexivity.
    + intros Ht. unfold _Annotation._image_index, _Annotation.data_dict.
      destruct (_data self); try (eexists; split; reflexivity). done.
  - split; [done|]. split; [by intros e [= <-]|]. split; [done|]. split.
    + intros d Hd Hnone. unfold _Annotation._image_index, _Annotation.data_dict.
      rewrite Hd. cbn [mbind result_bind]. unfold dict_contains. rewrite Hnone.
      eexists. split; reflexivity.
    + intros Ht. unfold _Annotation._image_index, _Annotation.data_dict.
      destruct (_data self); try (eexists; split; reflexivity). done.
Qed.

(** A record without the key, under a collection that counts its calls:
    the call is counted although the accessor fails. *)
Lemma row_index_failures_witness :
  _Annotation.row_index nat (fun _ _ k => (Ok [PyInt 1], S k)) eq_of_atoms
    (mk_annotation PyNone PyNone (PyDict [("type", PyStr "mask")])) 0%nat
  = (Raise (mk_exn AssertionError "Annotation's _data did not contain 'image_index': {}"
              [FDict [("type", PyStr "mask")]]), 1%nat).
Proof.
  destruct (row_index_failures nat (fun _ _ k => (Ok [PyInt 1], S k)) eq_of_atoms
              (mk_annotation PyNone PyNone (PyDict [("type", PyStr "mask")])) 0%nat)
    as (Hst & _ & Herr & _).
  specialize (Herr [PyInt 1] _ eq_refl eq_refl).
  destruct (_Annotation.row_index nat _ eq_of_atoms _ 0%nat) as [r k].
  cbn [fst snd] in Hst, Herr. by rewrite Hst, Herr.
Defined.

(** X17.  Construct, then read.  [_Annotation.__init__] binds exactly
    three or four positional arguments ([self], the collection, the
    record, and optionally the source, else [None]); the instance it
    initialises gives the collection and the source back through its
    accessors, and [_image_index] is the record's ['image_index'].  With
    fewer or more positional arguments it raises a [TypeError]. *)
Theorem Annotation_init_reads_back
    (self c s : pyval) (d : list (string * pyval)) (v : pyval) :
  dict_get "image_index" d = Some v ->
  (exists a, _Annotation.__init__ [self; c; PyDict d; s] [] = Ok a
             /\ _Annotation.__init__ [self; c; PyDict d] [("source", s)] = Ok a
             /\ _Annotation.collection a = c /\ _Annotation.source a = s
             /\ _Annotation._image_index a = Ok v)
  /\ (exists a, _Annotation.__init__ [self; c; PyDict d] [] = Ok a
                /\ _Annotation.collection a = c /\ _Annotation.source a = PyNone
                /\ _Annotation._image_index a = Ok v)
  /\ (forall args, (length args < 3 \/ 4 < length args)%nat ->
        exists e, _Annotation.__init__ args [] = Raise e /\ exn_cls e = TypeError).
Proof.
  intros Hv.
  assert (forall c' s', _Annotation._image_index (mk_annotation c' s' (PyDict d)) = Ok v)
    as Hidx.
  { intros c' s'. unfold _Annotation._image_index, _Annotation.data_dict.
    cbn [_data mbind result_bind]. unfold dict_contains, dict_getitem. by rewrite Hv. }
  split; [|split].
  - eexists. split; [reflexivity|]. split; [reflexivity|]. by repeat split.
  - eexists. split; [reflexivity|]. by repeat split.
  - intros args Hlen.
    destruct args as [|a0 [|a1 [|a2 [|a3 [|a4 rest]]]]]; cbn [length] in Hlen;
      try lia; eexists; split; reflexivity.
Qed.

Lemma Annotation_init_reads_back_witness :
  exists a, _Annotation.__init__ [PyNone; PyInt 1; PyDict [("image_index", PyInt 3)]] [] = Ok a
            /\ _Annotation.collection a = PyInt 1 /\ _Annotation.source a = PyNone
            /\ _Annotation._image_index a = Ok (PyInt 3).
Proof.
  apply (Annotation_init_reads_back PyNone (PyInt 1) PyNone
           [("image_index", PyInt 3)] (PyInt 3) eq_refl).
Defined.
